(** * Bottom tab navigation: a model of the two components and their properties

    The development follows the two source files
    [bottomNavigatorTab.component.tsx] (class [BottomNavigatorTab]) and the
    navigator component (class [BottomTabNavigator]).  Every method of the
    two classes is a function of the component's [this.props]; methods that
    call an application callback are functions into an effect type over the
    application's state. *)

From Stdlib Require Import Ascii.
From stdpp Require Import gmap strings list fin_maps pretty.

Set Warnings "-register-all".

Open Scope Z_scope.

(** ** JavaScript values carried by props and styles *)

(** Plain data.  The numbers that matter here are tab indices, counts and
    keys, which are integers; objects are property maps. *)
Inductive JSValue : Type :=
  | JSUndefined
  | JSNull
  | JSBool (b : bool)
  | JSNumber (n : Z)
  | JSString (s : string)
  | JSObject (fields : gmap string JSValue)
  | JSArray (items : list JSValue).

(** A [StyleType] value is an object of style tokens. *)
Abbreviation StyleType := (gmap string JSValue).

(** [o.name] on an object: a missing property reads as [undefined]. *)
Definition js_get (o : gmap string JSValue) (name : string) : JSValue :=
  default JSUndefined (o !! name).

(** [a === b] where one side is a primitive literal.  Objects and arrays
    are compared by reference in JavaScript and never equal a literal. *)
Definition js_strict_eq_prim (a b : JSValue) : bool :=
  match a, b with
  | JSUndefined, JSUndefined => true
  | JSNull, JSNull => true
  | JSBool x, JSBool y => Bool.eqb x y
  | JSNumber x, JSNumber y => x =? y
  | JSString x, JSString y => String.eqb x y
  | _, _ => false
  end.

(** Own enumerable properties copied by an object spread [{...v}]: the
    fields of an object, the items of an array and the characters of a
    string under their decimal positions, nothing for the other values. *)
Definition js_spread (v : JSValue) : gmap string JSValue :=
  match v with
  | JSObject o => o
  | JSArray items => list_to_map (imap (λ i item, (pretty i, item)) items)
  | JSString s =>
      list_to_map
        (imap (λ i c, (pretty i, JSString (String c EmptyString)))
              (String.list_ascii_of_string s))
  | _ => ∅
  end.

(** ** Numbers as strings *)

(** The digit for [d] in a radix up to 36: ['0'..'9'], then ['a'..'z']. *)
Definition digit (d : nat) : ascii :=
  ascii_of_nat (if (d <? 10)%nat then 48 + d else 87 + d).

Fixpoint toString_go (radix fuel n : nat) (acc : string) : string :=
  match fuel with
  | O => acc
  | S fuel =>
      let acc := String (digit (n mod radix)) acc in
      if (n / radix =? 0)%nat then acc else toString_go radix fuel (n / radix) acc
  end.

(** [n.toString(radix)] for a natural number. *)
Definition toString (radix n : nat) : string :=
  toString_go radix (S n) n "".

(** ['' + z] for an integer. *)
Definition number_to_string (z : Z) : string :=
  String.append (if z <? 0 then "-" else "") (toString 10 (Z.abs_nat z)).

(** ** React elements *)

Inductive ElementType : Type :=
  | View
  | Text
  | Image
  | TouchableOpacity
  | TabBarIndicator
  | Component (name : string).

(** A key as an application may give it: React's [Key] is a number or a
    string. *)
Inductive Key : Type :=
  | KeyNumber (n : Z)
  | KeyString (s : string).

(** ['' + key]: React stores every key as a string. *)
Definition key_to_string (k : Key) : string :=
  match k with
  | KeyNumber n => number_to_string n
  | KeyString s => s
  end.

(** An element is a component type, a reconciliation key (a string once
    stored) and a props object.  [V] is the type of prop values. *)
Record ReactElement (V : Type) : Type := mkElement {
  type : ElementType;
  key : option string;
  props : gmap string V;
}.
Arguments mkElement {V}.
Arguments type {V}.
Arguments key {V}.
Arguments props {V}.

(** [React.cloneElement(element, config)]: the type is kept, a key given in
    [config] replaces the original one, as a string, and the remaining
    entries of [config] are assigned over a copy of the original props. *)
Definition cloneElement {V} (element : ReactElement V)
    (config_key : option Key) (config : gmap string V) : ReactElement V :=
  {| type := type element;
     key := match config_key with
            | Some k => Some (key_to_string k)
            | None => key element
            end;
     props := config ∪ props element |}.

(** React's [cloneAndReplaceKey]. *)
Definition cloneAndReplaceKey {V} (oldElement : ReactElement V)
    (newKey : string) : ReactElement V :=
  {| type := type oldElement; key := Some newKey; props := props oldElement |}.

(** React's [escape]: ['='] becomes ["=0"], [':'] becomes ["=2"], and the
    result is prefixed with ['$']. *)
Fixpoint escape_chars (key : string) : string :=
  match key with
  | EmptyString => EmptyString
  | String c rest =>
      if Ascii.eqb c "="%char then String "="%char (String "0"%char (escape_chars rest))
      else if Ascii.eqb c ":"%char then String "="%char (String "2"%char (escape_chars rest))
      else String c (escape_chars rest)
  end.

Definition escape (key : string) : string :=
  String "$"%char (escape_chars key).

(** React's [escapeUserProvidedKey]: every run of slashes gets one more
    slash. *)
Fixpoint escapeUserProvidedKey (text : string) : string :=
  match text with
  | EmptyString => EmptyString
  | String c rest =>
      if Ascii.eqb c "/"%char
      then match rest with
           | String d _ =>
               if Ascii.eqb d "/"%char
               then String c (escapeUserProvidedKey rest)
               else String c (String "/"%char (escapeUserProvidedKey rest))
           | EmptyString => String c (String "/"%char EmptyString)
           end
      else String c (escapeUserProvidedKey rest)
  end.

(** React's [getComponentKey]: the escaped key of a keyed child, its
    position in base 36 otherwise. *)
Definition getComponentKey {V} (component : ReactElement V) (index : nat)
    : string :=
  match key component with
  | Some k => escape k
  | None => toString 36 index
  end.

(** What [React.Children.map] does with the child in position [index]:
    the callback's result is re-keyed to its own key (when it has one that
    differs from the child's), a slash, a dot and the child's component
    key. *)
Definition mapSingleChild {V} (func : nat -> ReactElement V -> ReactElement V)
    (index : nat) (child : ReactElement V) : ReactElement V :=
  let mappedChild := func index child in
  cloneAndReplaceKey mappedChild
    (String.append
       (match key mappedChild with
        | Some mappedKey =>
            if negb (String.eqb mappedKey "")
               && negb (bool_decide (key child = Some mappedKey))
            then String.append (escapeUserProvidedKey mappedKey) "/"
            else ""
        | None => ""
        end)
       (String.append "." (getComponentKey child index))).

(** [React.Children.map(children, func)] over a list of child elements. *)
Definition Children_map {V} (children : list (ReactElement V))
    (func : nat -> ReactElement V -> ReactElement V) : list (ReactElement V) :=
  imap (mapSingleChild func) children.

(** ** Callbacks and their effects *)

(** The result of running a callback from application state [w]. *)
Inductive Outcome (World : Type) : Type :=
  | Returned (w : World)
  | Threw (e : JSValue) (w : World).
Arguments Returned {World}.
Arguments Threw {World}.

Abbreviation Effect World := (World -> Outcome World).

(** Values that a prop can hold: data, a callback run for its effect, a
    render function from a style to an element or [null], or child
    elements. *)
Inductive PropVal (World : Type) : Type :=
  | PData (v : JSValue)
  | PHandler (f : JSValue -> Effect World)
  | PRender (f : StyleType -> option (ReactElement (PropVal World)))
  | PElements (items : list (ReactElement (PropVal World))).
Arguments PData {World}.
Arguments PHandler {World}.
Arguments PRender {World}.
Arguments PElements {World}.

Abbreviation Element World := (ReactElement (PropVal World)).

(** What a component returns from [render]: the root element and the
    children placed inside it.  [None] is an empty ([null] or [undefined])
    child slot. *)
Record Rendered (World : Type) : Type := mkRendered {
  root : Element World;
  content : list (option (Element World));
}.
Arguments mkRendered {World}.
Arguments root {World}.
Arguments content {World}.

Section Host.
Context {World : Type}.

(** [props.name]; an absent prop reads as [undefined]. *)
Definition prop (props : gmap string (PropVal World)) (name : string)
    : PropVal World :=
  default (PData JSUndefined) (props !! name).

Definition is_undefined (v : PropVal World) : bool :=
  match v with
  | PData JSUndefined => true
  | _ => false
  end.

(** The data held by a prop, [undefined] when it holds none. *)
Definition data_of (v : PropVal World) : JSValue :=
  match v with
  | PData d => d
  | _ => JSUndefined
  end.

(** Props are read at their declared TypeScript types; a prop that is
    absent (or not of its declared type) reads as [None]. *)
Definition as_string (v : PropVal World) : option string :=
  match v with PData (JSString s) => Some s | _ => None end.
Definition as_boolean (v : PropVal World) : option bool :=
  match v with PData (JSBool b) => Some b | _ => None end.
Definition as_number (v : PropVal World) : option Z :=
  match v with PData (JSNumber n) => Some n | _ => None end.
Definition as_handler (v : PropVal World) : option (JSValue -> Effect World) :=
  match v with PHandler f => Some f | _ => None end.
Definition as_render (v : PropVal World)
    : option (StyleType -> option (Element World)) :=
  match v with PRender f => Some f | _ => None end.
Definition as_style (v : PropVal World) : option StyleType :=
  match v with PData (JSObject o) => Some o | _ => None end.
Definition as_elements (v : PropVal World) : option (list (Element World)) :=
  match v with PElements items => Some items | _ => None end.

(** [!b] for an optional boolean: [undefined] is falsy. *)
Definition js_not (b : option bool) : bool := negb (default false b).

(** How [React.createElement] resolves [defaultProps]: every default
    whose prop is [undefined] in the given attributes is filled in. *)
Definition resolveDefaultProps (defaults attrs : gmap string (PropVal World))
    : gmap string (PropVal World) :=
  merge (λ a d,
    match a with
    | Some v => if is_undefined v then (match d with Some x => Some x | None => a end) else a
    | None => d
    end) attrs defaults.
End Host.

(** ** [BottomNavigatorTab] *)

Module BottomNavigatorTab.

(** The object returned by [getComponentStyle]. *)
Record ComponentStyle : Type := mkComponentStyle {
  icon : StyleType;
  title : StyleType;
}.

(** [styles.container] of the tab's style sheet. *)
Definition styles_container : StyleType :=
  {[ "flex" := JSNumber 1;
     "justifyContent" := JSString "center";
     "alignItems" := JSString "center" ]}.

Definition getComponentStyle (source : StyleType) : ComponentStyle :=
  {| icon :=
       {[ "width" := js_get source "iconWidth";
          "height" := js_get source "iconHeight";
          "marginBottom" := js_get source "iconMarginBottom";
          "tintColor" := js_get source "iconTintColor" ]};
     title :=
       {[ "color" := js_get source "textColor";
          "fontWeight" := js_get source "textFontWeight" ]} |}.

Section Component.
Context {World : Type}.
Implicit Types this_props : gmap string (PropVal World).

Definition onPress this_props : Effect World :=
  match as_handler (prop this_props "onSelect") with
  | Some onSelect =>
      onSelect (JSBool (js_not (as_boolean (prop this_props "selected"))))
  | None => Returned
  end.

Definition renderImageElement this_props (style : StyleType)
    : option (Element World) :=
  let icon : option (Element World) :=
    match as_render (prop this_props "icon") with
    | Some f => f style
    | None => None
    end in
  match icon with
  | Some icon =>
      Some (cloneElement icon (Some (KeyNumber 1))
              {[ "style" :=
                   PData (JSObject
                     (<["marginBottom" := js_get style "source"]>
                        (js_spread (data_of (prop (props icon) "style"))))) ]})
  | None => None
  end.

Definition renderTextElement this_props (style : StyleType)
    : option (Element World) :=
  match as_string (prop this_props "title") with
  | Some t =>
      if negb (String.eqb t "") && negb (Z.of_nat (String.length t) =? 0)
      then Some {| type := Text;
                   key := Some (key_to_string (KeyNumber 2));
                   props := {[ "style" := PData (JSObject style);
                               "children" := prop this_props "title" ]} |}
      else None
  | None => None
  end.

Definition renderComponentChildren this_props (style : ComponentStyle)
    : list (option (Element World)) :=
  [ renderImageElement this_props (icon style);
    renderTextElement this_props (title style) ].

(** [render] reads tokens from [themedStyle]; without a themed style
    object that read raises, which is [None] here.  The children written
    inside the touchable replace any [children] among the forwarded props:
    they are the [content], and the root's props hold no [children]. *)
Definition render this_props : option (Rendered World) :=
  themedStyle ← as_style (prop this_props "themedStyle");
  let derivedProps := delete "themedStyle" (delete "style" this_props) in
  let componentStyles := getComponentStyle themedStyle in
  let componentChildren := renderComponentChildren this_props componentStyles in
  Some {| root :=
            {| type := TouchableOpacity;
               key := None;
               props :=
                 delete "children"
                   (<["onPress" := PHandler (λ _, onPress this_props)]>
                      (<["activeOpacity" := PData (JSNumber 1)]>
                         (<["style" :=
                              PData (JSArray [data_of (prop this_props "style");
                                              JSObject styles_container])]>
                            derivedProps))) |};
          content := componentChildren |}.
End Component.

End BottomNavigatorTab.

(** ** [BottomTabNavigator] *)

Module BottomTabNavigator.

(** The object returned by [getComponentStyle]. *)
Record ComponentStyle : Type := mkComponentStyle {
  container : StyleType;
  indicator : StyleType;
}.

Definition getComponentStyle (style : StyleType) : ComponentStyle :=
  {| container :=
       {[ "backgroundColor" := js_get style "backgroundColor";
          "paddingVertical" := js_get style "paddingVertical";
          "borderTopColor" := js_get style "borderTopColor";
          "borderTopWidth" := js_get style "borderTopWidth" ]};
     indicator :=
       {[ "height" := js_get style "indicatorHeight";
          "backgroundColor" := js_get style "indicatorBackgroundColor" ]} |}.

(** [styles.indicator] of the navigator's style sheet. *)
Definition styles_indicator : StyleType :=
  {[ "position" := JSString "absolute" ]}.

Section Component.
Context {World : Type}.
(** [Dimensions.get('window').width], supplied by the host. *)
Variable windowWidth : JSValue.
Implicit Types this_props : gmap string (PropVal World).

(** [styles.container] of the navigator's style sheet. *)
Definition styles_container : StyleType :=
  {[ "flexDirection" := JSString "row";
     "justifyContent" := JSString "space-between";
     "width" := windowWidth ]}.

Definition defaultProps : gmap string (PropVal World) :=
  {[ "selectedIndex" := PData (JSNumber 0) ]}.

Definition onChildPress this_props (index : Z) : Effect World :=
  match as_handler (prop this_props "onSelect") with
  | Some onSelect =>
      if negb (bool_decide (as_number (prop this_props "selectedIndex") = Some index))
      then onSelect (JSNumber index)
      else Returned
  | None => Returned
  end.

Definition renderIndicatorElement this_props (positions : Z) (style : StyleType)
    : Element World :=
  {| type := TabBarIndicator;
     key := Some (key_to_string (KeyNumber 0));
     props :=
       {[ "style" := PData (JSArray [JSObject style; JSObject styles_indicator]);
          "selectedPosition" := prop this_props "selectedIndex";
          "positions" := PData (JSNumber positions) ]} |}.

Definition renderTabElement this_props (index : nat) (element : Element World)
    : Element World :=
  cloneElement element (Some (KeyNumber (Z.of_nat index)))
    {[ "style" := PData (JSObject {[ "flex" := JSNumber 1 ]});
       "selected" :=
         PData (JSBool (bool_decide
           (Some (Z.of_nat index) = as_number (prop this_props "selectedIndex"))));
       "onSelect" := PHandler (λ _, onChildPress this_props (Z.of_nat index)) ]}.

(** [React.Children.map(items, this.renderTabElement)]: the callback is
    applied to each child with its position, in order, and each result is
    re-keyed. *)
Definition tabElements this_props (items : list (Element World))
    : list (Element World) :=
  Children_map items (renderTabElement this_props).

Definition renderComponentChildren this_props (items : list (Element World))
    (indicator : StyleType) : list (option (Element World)) :=
  let tabElements := tabElements this_props items in
  let shouldShowIndicator : bool :=
    negb (js_strict_eq_prim (js_get indicator "backgroundColor")
                            (JSString "transparent")) in
  (if shouldShowIndicator
   then Some (renderIndicatorElement this_props
                (Z.of_nat (length tabElements)) indicator)
   else None)
  :: (Some <$> tabElements).

(** [render] reads tokens from [themedStyle] and maps over [children];
    without a themed style object or without child elements that
    raises, which is [None] here.  The children written inside the view
    are the [content]. *)
Definition render this_props : option (Rendered World) :=
  themedStyle ← as_style (prop this_props "themedStyle");
  children ← as_elements (prop this_props "children");
  let derivedProps :=
    delete "children" (delete "themedStyle" (delete "style" this_props)) in
  let componentStyle := getComponentStyle themedStyle in
  let componentChildren :=
    renderComponentChildren this_props children (indicator componentStyle) in
  Some {| root :=
            {| type := View;
               key := None;
               props :=
                 <["style" :=
                     PData (JSArray [JSObject (container componentStyle);
                                     data_of (prop this_props "style");
                                     JSObject styles_container])]>
                   derivedProps |};
          content := componentChildren |}.

(** A tap on the tab in position [i] of the rendered navigator: the
    touchable of that tab fires [BottomNavigatorTab.onPress] with the
    props the navigator gave it.  Slot 0 of the content is the
    indicator's. *)
Definition pressTab this_props (i : nat) : Effect World :=
  match render this_props with
  | Some view =>
      match content view !! S i with
      | Some (Some tab) => BottomNavigatorTab.onPress (props tab)
      | _ => Returned
      end
  | None => Returned
  end.
End Component.

End BottomTabNavigator.

(** ** Reading a rendered navigator *)



(** ** Sample inputs

    The application state of the samples is the log of the arguments its
    callbacks were invoked with. *)

Module Samples.

Definition Log : Type := list JSValue.

(** A callback that appends its argument to the log. *)
Definition record : JSValue -> Effect Log :=
  λ arg log, Returned (log ++ [arg]).

Definition theme : StyleType :=
  {[ "iconWidth" := JSNumber 24;
     "iconHeight" := JSNumber 20;
     "iconMarginBottom" := JSNumber 4;
     "iconTintColor" := JSString "gray";
     "textColor" := JSString "black";
     "textFontWeight" := JSString "normal";
     "indicatorHeight" := JSNumber 2;
     "indicatorBackgroundColor" := JSString "blue" ]}.

(** [(style) => <Image style={style}/>] *)
Definition image (style : StyleType) : option (Element Log) :=
  Some {| type := Image; key := None;
          props := {[ "style" := PData (JSObject style) ]} |}.

(** [() => null] *)
Definition no_image (style : StyleType) : option (Element Log) := None.

(** [<BottomNavigatorTab title=... icon=.../>] as written by the application. *)
Definition tab (title : string) : Element Log :=
  {| type := Component "BottomNavigatorTab"; key := None;
     props := {[ "title" := PData (JSString title);
                 "icon" := PRender image;
                 "themedStyle" := PData (JSObject theme) ]} |}.

(** A standalone tab with a callback. *)
Definition tab_props (selected : bool) : gmap string (PropVal Log) :=
  <["selected" := PData (JSBool selected)]>
    (<["onSelect" := PHandler record]> (props (tab "Home"))).

(** [this.props] of a navigator over three tabs. *)
Definition navigator (selectedIndex : Z) (background : string)
    : gmap string (PropVal Log) :=
  resolveDefaultProps BottomTabNavigator.defaultProps
    {[ "children" := PElements [tab "Home"; tab "Search"; tab "Profile"];
       "selectedIndex" := PData (JSNumber selectedIndex);
       "onSelect" := PHandler record;
       "themedStyle" :=
         PData (JSObject (<["indicatorBackgroundColor" := JSString background]> theme)) ]}.

(** The same navigator without [selectedIndex] and without [onSelect]. *)
Definition bare_navigator : gmap string (PropVal Log) :=
  resolveDefaultProps BottomTabNavigator.defaultProps
    {[ "children" := PElements [tab "Home"; tab "Search"; tab "Profile"];
       "themedStyle" := PData (JSObject theme) ]}.

End Samples.

(** * Properties *)

Import Samples.

(** ** Reading props *)

Section PropFacts.
Context {World : Type}.
Implicit Types (m : gmap string (PropVal World)) (v : PropVal World).

Lemma prop_lookup m name v : m !! name = Some v -> prop m name = v.
Proof. intros H. unfold prop. by rewrite H. Qed.

Lemma as_handler_undefined v : is_undefined v = true -> as_handler v = None.
Proof. destruct v as [[]| | |]; simpl; congruence. Qed.

Lemma js_strict_eq_string (a : JSValue) (s : string) :
  js_strict_eq_prim a (JSString s) = true <-> a = JSString s.
Proof.
  destruct a; simpl; try (split; [discriminate | congruence]).
  rewrite String.eqb_eq. split; congruence.
Qed.

Lemma resolveDefaultProps_lookup (defaults attrs : gmap string (PropVal World)) name :
  resolveDefaultProps defaults attrs !! name =
    match attrs !! name with
    | Some v =>
        if is_undefined v
        then (match defaults !! name with Some x => Some x | None => Some v end)
        else Some v
    | None => defaults !! name
    end.
Proof.
  unfold resolveDefaultProps. rewrite lookup_merge.
  destruct (attrs !! name) as [v|], (defaults !! name) as [d|]; simpl; try done.
  all: by destruct (is_undefined v).
Qed.

End PropFacts.

(** ** Facts about the navigator's rendering *)

Section NavigatorFacts.
Context {World : Type}.
Variable windowWidth : JSValue.
Implicit Types (this_props : gmap string (PropVal World)).
Implicit Types (items : list (Element World)) (element : Element World).

Import BottomTabNavigator.

Lemma renderTabElement_selected this_props i element :
  props (renderTabElement this_props i element) !! "selected" =
    Some (PData (JSBool (bool_decide
      (Some (Z.of_nat i) = as_number (prop this_props "selectedIndex"))))).
Proof.
  unfold renderTabElement, cloneElement; simpl.
  apply lookup_union_Some_l.
  rewrite lookup_insert_ne by done. by rewrite lookup_insert_eq.
Qed.

Lemma renderTabElement_onSelect this_props i element :
  as_handler (prop (props (renderTabElement this_props i element)) "onSelect") =
    Some (λ _, onChildPress this_props (Z.of_nat i)).
Proof.
  unfold renderTabElement, cloneElement; simpl.
  rewrite (prop_lookup _ _ (PHandler (λ _, onChildPress this_props (Z.of_nat i)))); [done |].
  apply lookup_union_Some_l.
  do 2 (rewrite lookup_insert_ne by done). by rewrite lookup_singleton_eq.
Qed.

Lemma renderTabElement_frame this_props i element name :
  name ≠ "style" -> name ≠ "selected" -> name ≠ "onSelect" ->
  props (renderTabElement this_props i element) !! name = props element !! name.
Proof.
  intros Hstyle Hselected HonSelect.
  unfold renderTabElement, cloneElement; simpl.
  rewrite lookup_union_r; [done |].
  do 2 (rewrite lookup_insert_ne by done). by rewrite lookup_singleton_ne.
Qed.

Lemma tabElements_lookup this_props items i :
  tabElements this_props items !! i
    = mapSingleChild (renderTabElement this_props) i <$> items !! i.
Proof. unfold tabElements, Children_map. apply list_lookup_imap. Qed.

Lemma tabElements_length this_props items :
  length (tabElements this_props items) = length items.
Proof. unfold tabElements, Children_map. apply length_imap. Qed.


Lemma renderedTab_onSelect this_props i element :
  as_handler
    (prop (props (mapSingleChild (renderTabElement this_props) i element)) "onSelect")
    = Some (λ _, onChildPress this_props (Z.of_nat i)).
Proof. exact (renderTabElement_onSelect this_props i element). Qed.

Lemma renderedTab_frame this_props i element name :
  name ≠ "style" -> name ≠ "selected" -> name ≠ "onSelect" ->
  props (mapSingleChild (renderTabElement this_props) i element) !! name
    = props element !! name.
Proof. exact (renderTabElement_frame this_props i element name). Qed.

Lemma renderComponentChildren_tab this_props items indicator i :
  renderComponentChildren this_props items indicator !! S i =
    (λ element, Some (mapSingleChild (renderTabElement this_props) i element))
      <$> items !! i.
Proof.
  unfold renderComponentChildren. simpl.
  rewrite list_lookup_fmap, tabElements_lookup.
  by destruct (items !! i).
Qed.

Lemma render_defined this_props themedStyle items :
  as_style (prop this_props "themedStyle") = Some themedStyle ->
  as_elements (prop this_props "children") = Some items ->
  ∃ view,
    render windowWidth this_props = Some view ∧
    content view =
      renderComponentChildren this_props items
        (indicator (getComponentStyle themedStyle)).
Proof.
  intros Hstyle Hchildren. unfold render.
  rewrite Hstyle; simpl. rewrite Hchildren; simpl.
  eexists; split; reflexivity.
Qed.

Lemma render_inv this_props view :
  render windowWidth this_props = Some view ->
  ∃ themedStyle items,
    as_style (prop this_props "themedStyle") = Some themedStyle ∧
    as_elements (prop this_props "children") = Some items ∧
    content view =
      renderComponentChildren this_props items
        (indicator (getComponentStyle themedStyle)).
Proof.
  unfold render. intros H.
  destruct (as_style (prop this_props "themedStyle")) as [themedStyle|];
    simpl in H; [| discriminate].
  destruct (as_elements (prop this_props "children")) as [items|];
    simpl in H; [| discriminate].
  exists themedStyle, items. injection H as <-. auto.
Qed.

Lemma pressTab_onChildPress this_props themedStyle items i :
  as_style (prop this_props "themedStyle") = Some themedStyle ->
  as_elements (prop this_props "children") = Some items ->
  (i < length items)%nat ->
  pressTab windowWidth this_props i = onChildPress this_props (Z.of_nat i).
Proof.
  intros Hstyle Hchildren Hi.
  destruct (render_defined _ _ _ Hstyle Hchildren) as (view & Hview & Hcontent).
  unfold pressTab. rewrite Hview, Hcontent, renderComponentChildren_tab.
  destruct (lookup_lt_is_Some_2 items i Hi) as [element ->].
  change (BottomNavigatorTab.onPress (props (renderTabElement this_props i element))
          = onChildPress this_props (Z.of_nat i)).
  unfold BottomNavigatorTab.onPress.
  by rewrite renderTabElement_onSelect.
Qed.

End NavigatorFacts.

(** ** Selection callbacks of the navigator *)

(** C1, as stated, fails on the selected tab: the navigator below has an
    [onSelect] callback and three tabs, its [selectedIndex] is 1, and a tap
    on the tab in position 1 leaves the log empty instead of invoking the
    callback with 1. *)
Lemma pressTab_selected_tab_not_forwarded :
  as_handler (prop (navigator 1 "blue") "onSelect") = Some record ∧
  length <$> as_elements (prop (navigator 1 "blue") "children") = Some 3%nat ∧
  BottomTabNavigator.pressTab (JSNumber 360) (navigator 1 "blue") 1 [] = Returned [] ∧
  BottomTabNavigator.pressTab (JSNumber 360) (navigator 1 "blue") 1 []
    ≠ record (JSNumber 1) [].
Proof.
  split; [reflexivity |]. split; [reflexivity |].
  split; [reflexivity |]. vm_compute. discriminate.
Qed.

(** C1, amended: when the navigator has an [onSelect] callback and the tab
    in position [i] is tapped, with [i] different from the navigator's
    [selectedIndex], the effect of the tap is exactly the call
    [onSelect(i)]. *)
Theorem pressTab_invokes_onSelect_with_index {World : Type}
    (windowWidth : JSValue) (this_props : gmap string (PropVal World))
    (themedStyle : StyleType) (items : list (Element World))
    (onSelect : JSValue -> Effect World) (i : nat) (w : World) :
  as_style (prop this_props "themedStyle") = Some themedStyle ->
  as_elements (prop this_props "children") = Some items ->
  (i < length items)%nat ->
  as_handler (prop this_props "onSelect") = Some onSelect ->
  as_number (prop this_props "selectedIndex") ≠ Some (Z.of_nat i) ->
  BottomTabNavigator.pressTab windowWidth this_props i w
    = onSelect (JSNumber (Z.of_nat i)) w.
Proof.
  intros Hstyle Hchildren Hi Hon Hsel.
  rewrite (pressTab_onChildPress _ _ _ _ _ Hstyle Hchildren Hi).
  unfold BottomTabNavigator.onChildPress. rewrite Hon.
  by rewrite bool_decide_eq_false_2.
Qed.

Lemma pressTab_invokes_onSelect_with_index_witness :
  as_style (prop (navigator 1 "blue") "themedStyle")
    = Some (<["indicatorBackgroundColor" := JSString "blue"]> theme) ∧
  as_elements (prop (navigator 1 "blue") "children")
    = Some [tab "Home"; tab "Search"; tab "Profile"] ∧
  (2 < length [tab "Home"; tab "Search"; tab "Profile"])%nat ∧
  as_handler (prop (navigator 1 "blue") "onSelect") = Some record ∧
  as_number (prop (navigator 1 "blue") "selectedIndex") ≠ Some (Z.of_nat 2) ∧
  BottomTabNavigator.pressTab (JSNumber 360) (navigator 1 "blue") 2 []
    = Returned [JSNumber 2].
Proof.
  assert (H1 : as_style (prop (navigator 1 "blue") "themedStyle")
    = Some (<["indicatorBackgroundColor" := JSString "blue"]> theme))
    by reflexivity.
  assert (H2 : as_elements (prop (navigator 1 "blue") "children")
    = Some [tab "Home"; tab "Search"; tab "Profile"]) by reflexivity.
  assert (H3 : (2 < length [tab "Home"; tab "Search"; tab "Profile"])%nat)
    by (simpl; lia).
  assert (H4 : as_handler (prop (navigator 1 "blue") "onSelect") = Some record)
    by reflexivity.
  assert (H5 : as_number (prop (navigator 1 "blue") "selectedIndex")
    ≠ Some (Z.of_nat 2)) by (vm_compute; discriminate).
  refine (conj H1 (conj H2 (conj H3 (conj H4 (conj H5 _))))).
  exact (pressTab_invokes_onSelect_with_index (JSNumber 360) _ _ _ _ 2 []
           H1 H2 H3 H4 H5).
Defined.

(** C9: a tap on the tab whose index equals the navigator's current
    [selectedIndex] invokes nothing, whatever [onSelect] is: both
    [onChildPress] at that index and the tap on the rendered tab in that
    position return with the application state unchanged. *)
Theorem onChildPress_selected_index_silent {World : Type}
    (windowWidth : JSValue) (this_props : gmap string (PropVal World))
    (index : Z) (w : World) :
  as_number (prop this_props "selectedIndex") = Some index ->
  BottomTabNavigator.onChildPress this_props index w = Returned w ∧
  (∀ i : nat, Z.of_nat i = index ->
     BottomTabNavigator.pressTab windowWidth this_props i w = Returned w).
Proof.
  intros Hsel.
  assert (Hpress :
    BottomTabNavigator.onChildPress this_props index w = Returned w).
  { unfold BottomTabNavigator.onChildPress.
    destruct (as_handler (prop this_props "onSelect")); [| done].
    by rewrite bool_decide_eq_true_2. }
  split; [exact Hpress |].
  intros i <-.
  unfold BottomTabNavigator.pressTab.
  destruct (BottomTabNavigator.render windowWidth this_props) as [view|] eqn:Hview;
    [| done].
  destruct (render_inv _ _ _ Hview) as (themedStyle & items & _ & _ & Hcontent).
  rewrite Hcontent, renderComponentChildren_tab.
  destruct (items !! i) as [element|]; [| done].
  change (BottomNavigatorTab.onPress
            (props (BottomTabNavigator.renderTabElement this_props i element)) w
          = Returned w).
  unfold BottomNavigatorTab.onPress.
  by rewrite renderTabElement_onSelect.
Qed.

Lemma onChildPress_selected_index_silent_witness :
  as_number (prop (navigator 1 "blue") "selectedIndex") = Some 1 ∧
  BottomTabNavigator.onChildPress (navigator 1 "blue") 1 [] = Returned [] ∧
  BottomTabNavigator.pressTab (JSNumber 360) (navigator 1 "blue") 1 []
    = Returned [].
Proof.
  assert (H : as_number (prop (navigator 1 "blue") "selectedIndex") = Some 1)
    by reflexivity.
  destruct (onChildPress_selected_index_silent (JSNumber 360) _ 1 [] H)
    as [Hpress Htap].
  exact (conj H (conj Hpress (Htap 1%nat eq_refl))).
Defined.

(** ** What the navigator renders *)

(** C3: whatever integer [selectedIndex] is, negative and too large values
    included, [render] of a navigator with a themed style and child
    elements returns a view with one slot for the indicator and one per
    child; when [selectedIndex] is out of range every injected child has
    [selected] equal to [false]. *)
Theorem render_total_for_every_selectedIndex {World : Type}
    (windowWidth : JSValue) (this_props : gmap string (PropVal World))
    (themedStyle : StyleType) (items : list (Element World)) (z : Z) :
  as_style (prop this_props "themedStyle") = Some themedStyle ->
  as_elements (prop this_props "children") = Some items ->
  as_number (prop this_props "selectedIndex") = Some z ->
  ∃ view,
    BottomTabNavigator.render windowWidth this_props = Some view ∧
    length (content view) = S (length items) ∧
    (z < 0 ∨ Z.of_nat (length items) <= z ->
     ∀ (i : nat) tab,
       content view !! S i = Some (Some tab) ->
       prop (props tab) "selected" = PData (JSBool false)).
Proof.
  intros Hstyle Hchildren Hsel.
  destruct (render_defined windowWidth _ _ _ Hstyle Hchildren)
    as (view & Hview & Hcontent).
  exists view. split; [exact Hview |]. split.
  - rewrite Hcontent. unfold BottomTabNavigator.renderComponentChildren.
    simpl. by rewrite length_fmap, tabElements_length.
  - intros Hrange i tab Htab.
    rewrite Hcontent, renderComponentChildren_tab in Htab.
    destruct (items !! i) as [element|] eqn:Hi; [| discriminate].
    apply lookup_lt_Some in Hi.
    injection Htab as <-.
    erewrite prop_lookup by apply renderTabElement_selected.
    rewrite Hsel, bool_decide_eq_false_2; [done |].
    intros [= Heq]. lia.
Qed.

Lemma render_total_for_every_selectedIndex_witness :
  as_style (prop (navigator (-2) "blue") "themedStyle")
    = Some (<["indicatorBackgroundColor" := JSString "blue"]> theme) ∧
  as_elements (prop (navigator (-2) "blue") "children")
    = Some [tab "Home"; tab "Search"; tab "Profile"] ∧
  as_number (prop (navigator (-2) "blue") "selectedIndex") = Some (-2) ∧
  ∃ view,
    BottomTabNavigator.render (JSNumber 360) (navigator (-2) "blue") = Some view ∧
    length (content view) = 4%nat ∧
    (-2 < 0 ∨ 3 <= -2 ->
     ∀ (i : nat) tab,
       content view !! S i = Some (Some tab) ->
       prop (props tab) "selected" = PData (JSBool false)).
Proof.
  assert (H1 : as_style (prop (navigator (-2) "blue") "themedStyle")
    = Some (<["indicatorBackgroundColor" := JSString "blue"]> theme))
    by reflexivity.
  assert (H2 : as_elements (prop (navigator (-2) "blue") "children")
    = Some [tab "Home"; tab "Search"; tab "Profile"]) by reflexivity.
  assert (H3 : as_number (prop (navigator (-2) "blue") "selectedIndex")
    = Some (-2)) by reflexivity.
  refine (conj H1 (conj H2 (conj H3 _))).
  exact (render_total_for_every_selectedIndex (JSNumber 360) _ _ _ (-2) H1 H2 H3).
Defined.

(** C10: a navigator created without [selectedIndex] gets the default 0;
    in every render the child in position [i] is injected with [selected]
    equal to the truth of [i = selectedIndex], so any two children marked
    selected are the same child. *)
Theorem render_selects_exactly_selectedIndex {World : Type}
    (windowWidth : JSValue) :
  (∀ attrs : gmap string (PropVal World),
     is_undefined (prop attrs "selectedIndex") = true ->
     prop (resolveDefaultProps BottomTabNavigator.defaultProps attrs) "selectedIndex"
       = PData (JSNumber 0)) ∧
  (∀ (this_props : gmap string (PropVal World)) view,
     BottomTabNavigator.render windowWidth this_props = Some view ->
     (∀ (i : nat) tab,
        content view !! S i = Some (Some tab) ->
        prop (props tab) "selected" =
          PData (JSBool (bool_decide
            (as_number (prop this_props "selectedIndex") = Some (Z.of_nat i))))) ∧
     (∀ (i j : nat) tab_i tab_j,
        content view !! S i = Some (Some tab_i) ->
        content view !! S j = Some (Some tab_j) ->
        prop (props tab_i) "selected" = PData (JSBool true) ->
        prop (props tab_j) "selected" = PData (JSBool true) ->
        i = j)).
Proof.
  split.
  - intros attrs Hundef. unfold prop in *.
    rewrite resolveDefaultProps_lookup.
    unfold BottomTabNavigator.defaultProps. rewrite lookup_singleton_eq.
    destruct (attrs !! "selectedIndex") as [v|]; simpl in *; [| done].
    by rewrite Hundef.
  - intros this_props view Hview.
    destruct (render_inv _ _ _ Hview) as (themedStyle & items & _ & _ & Hcontent).
    assert (Hselected : ∀ (i : nat) tab,
      content view !! S i = Some (Some tab) ->
      prop (props tab) "selected" =
        PData (JSBool (bool_decide
          (as_number (prop this_props "selectedIndex") = Some (Z.of_nat i))))).
    { intros i tab Htab.
      rewrite Hcontent, renderComponentChildren_tab in Htab.
      destruct (items !! i) as [element|]; [| discriminate].
      injection Htab as <-.
      erewrite prop_lookup by apply renderTabElement_selected.
      do 2 f_equal. apply bool_decide_ext. split; congruence. }
    split; [exact Hselected |].
    intros i j tab_i tab_j Hi Hj Hseli Hselj.
    rewrite (Hselected _ _ Hi) in Hseli. rewrite (Hselected _ _ Hj) in Hselj.
    injection Hseli as Hseli. injection Hselj as Hselj.
    apply bool_decide_eq_true_1 in Hseli, Hselj.
    rewrite Hseli in Hselj. injection Hselj as Hij. lia.
Qed.

Lemma render_selects_exactly_selectedIndex_witness :
  is_undefined
    (prop ({[ "children" := PElements [tab "Home"; tab "Search"; tab "Profile"];
              "themedStyle" := PData (JSObject theme) ]}
             : gmap string (PropVal Log)) "selectedIndex") = true ∧
  prop bare_navigator "selectedIndex" = PData (JSNumber 0) ∧
  ∃ view tab_0 tab_1,
    BottomTabNavigator.render (JSNumber 360) bare_navigator = Some view ∧
    content view !! 1%nat = Some (Some tab_0) ∧
    content view !! 2%nat = Some (Some tab_1) ∧
    prop (props tab_0) "selected" = PData (JSBool true) ∧
    prop (props tab_1) "selected" = PData (JSBool false).
Proof.
  destruct (render_selects_exactly_selectedIndex (World := Log) (JSNumber 360))
    as [Hdefault Hrender].
  assert (H0 : is_undefined
    (prop ({[ "children" := PElements [tab "Home"; tab "Search"; tab "Profile"];
              "themedStyle" := PData (JSObject theme) ]}
             : gmap string (PropVal Log)) "selectedIndex") = true)
    by reflexivity.
  refine (conj H0 (conj (Hdefault _ H0) _)).
  destruct (BottomTabNavigator.render (JSNumber 360) bare_navigator)
    as [view|] eqn:Hview; [| discriminate Hview].
  destruct (Hrender _ _ Hview) as [Hselected _].
  injection Hview as <-.
  eexists _, _, _. split; [reflexivity |].
  split; [reflexivity |]. split; [reflexivity |].
  split.
  - exact (Hselected 0%nat _ eq_refl).
  - exact (Hselected 1%nat _ eq_refl).
Defined.

(** C6: the first slot of the rendered content holds the indicator element
    exactly when the themed indicator [backgroundColor] is not
    ['transparent']; the tab elements follow it in order, and the indicator
    gets [positions] equal to the number of children and
    [selectedPosition] equal to the navigator's [selectedIndex]. *)
Theorem render_indicator_iff_not_transparent {World : Type}
    (windowWidth : JSValue) (this_props : gmap string (PropVal World))
    (themedStyle : StyleType) (items : list (Element World)) :
  as_style (prop this_props "themedStyle") = Some themedStyle ->
  as_elements (prop this_props "children") = Some items ->
  ∃ view slot,
    BottomTabNavigator.render windowWidth this_props = Some view ∧
    content view = slot :: (Some <$> BottomTabNavigator.tabElements this_props items) ∧
    (is_Some slot <->
       js_get (BottomTabNavigator.indicator
                 (BottomTabNavigator.getComponentStyle themedStyle))
              "backgroundColor" ≠ JSString "transparent") ∧
    js_get (BottomTabNavigator.indicator
              (BottomTabNavigator.getComponentStyle themedStyle)) "backgroundColor"
      = js_get themedStyle "indicatorBackgroundColor" ∧
    (∀ element, slot = Some element ->
       type element = TabBarIndicator ∧
       prop (props element) "positions"
         = PData (JSNumber (Z.of_nat (length items))) ∧
       prop (props element) "selectedPosition" = prop this_props "selectedIndex").
Proof.
  intros Hstyle Hchildren.
  destruct (render_defined windowWidth _ _ _ Hstyle Hchildren)
    as (view & Hview & Hcontent).
  unfold BottomTabNavigator.renderComponentChildren in Hcontent.
  set (background :=
    js_get (BottomTabNavigator.indicator
              (BottomTabNavigator.getComponentStyle themedStyle))
           "backgroundColor") in *.
  eexists view, _. split; [exact Hview |]. split; [exact Hcontent |].
  split; [| split].
  - destruct (js_strict_eq_prim background (JSString "transparent")) eqn:Heq; simpl.
    + apply js_strict_eq_string in Heq. split; [intros [? [=]] | done].
    + split; [| by eauto]. intros _ Hbg.
      apply js_strict_eq_string in Hbg. congruence.
  - subst background. unfold js_get at 1. simpl.
    rewrite lookup_insert_ne by done. by rewrite lookup_singleton_eq.
  - intros element Helement.
    destruct (negb (js_strict_eq_prim background (JSString "transparent")));
      [| discriminate].
    injection Helement as <-.
    unfold BottomTabNavigator.renderIndicatorElement; simpl.
    split; [done |]. rewrite tabElements_length. split.
    + apply prop_lookup.
      do 2 (rewrite lookup_insert_ne by done). by rewrite lookup_singleton_eq.
    + apply prop_lookup.
      rewrite lookup_insert_ne by done. by rewrite lookup_insert_eq.
Qed.

Lemma render_indicator_iff_not_transparent_witness :
  as_style (prop (navigator 1 "transparent") "themedStyle")
    = Some (<["indicatorBackgroundColor" := JSString "transparent"]> theme) ∧
  as_elements (prop (navigator 1 "transparent") "children")
    = Some [tab "Home"; tab "Search"; tab "Profile"] ∧
  ∃ view,
    BottomTabNavigator.render (JSNumber 360) (navigator 1 "transparent") = Some view ∧
    content view =
      None :: (Some <$> BottomTabNavigator.tabElements (navigator 1 "transparent")
                          [tab "Home"; tab "Search"; tab "Profile"]).
Proof.
  assert (H1 : as_style (prop (navigator 1 "transparent") "themedStyle")
    = Some (<["indicatorBackgroundColor" := JSString "transparent"]> theme))
    by reflexivity.
  assert (H2 : as_elements (prop (navigator 1 "transparent") "children")
    = Some [tab "Home"; tab "Search"; tab "Profile"]) by reflexivity.
  refine (conj H1 (conj H2 _)).
  destruct (render_indicator_iff_not_transparent (JSNumber 360) _ _ _ H1 H2)
    as (view & slot & Hview & Hcontent & Hslot & _ & _).
  exists view. split; [exact Hview |].
  destruct slot as [element|]; [| exact Hcontent].
  exfalso. apply (proj1 Hslot); [by eauto | reflexivity].
Defined.

(** ** Keys of the rendered tabs *)

Section KeyFacts.

Lemma toString_go_step radix fuel n acc :
  toString_go radix (S fuel) n acc =
    if (n / radix =? 0)%nat
    then String (digit (n mod radix)) acc
    else toString_go radix fuel (n / radix) (String (digit (n mod radix)) acc).
Proof. reflexivity. Qed.

Lemma toString_go_nonempty radix fuel n c acc :
  toString_go radix fuel n (String c acc) ≠ EmptyString.
Proof.
  revert n c acc. induction fuel as [| fuel IH]; intros n c acc.
  - discriminate.
  - rewrite toString_go_step.
    destruct (n / radix =? 0)%nat; [discriminate | apply IH].
Qed.

Lemma toString_nonempty radix n : toString radix n ≠ EmptyString.
Proof.
  unfold toString. rewrite toString_go_step.
  destruct (n / radix =? 0)%nat; [discriminate | apply toString_go_nonempty].
Qed.

Lemma digit_decimal_not_slash d : (d < 10)%nat -> digit d ≠ "/"%char.
Proof.
  intros Hd. do 10 (destruct d as [| d]; [discriminate |]). lia.
Qed.

Lemma toString_go_decimal_slash_free fuel n acc :
  "/"%char ∉ String.list_ascii_of_string acc ->
  "/"%char ∉ String.list_ascii_of_string (toString_go 10 fuel n acc).
Proof.
  revert n acc. induction fuel as [| fuel IH]; intros n acc Hacc.
  - exact Hacc.
  - rewrite toString_go_step.
    assert (Hnext : "/"%char ∉
      String.list_ascii_of_string (String (digit (n mod 10)) acc)).
    { change (String.list_ascii_of_string (String (digit (n mod 10)) acc))
        with (digit (n mod 10) :: String.list_ascii_of_string acc).
      apply not_elem_of_cons. split; [| exact Hacc].
      intros Heq. symmetry in Heq. revert Heq. apply digit_decimal_not_slash.
      apply Nat.mod_upper_bound. lia. }
    destruct (n / 10 =? 0)%nat; [exact Hnext | by apply IH].
Qed.

Lemma escapeUserProvidedKey_slash_free text :
  "/"%char ∉ String.list_ascii_of_string text ->
  escapeUserProvidedKey text = text.
Proof.
  induction text as [| c rest IH]; simpl; [done |].
  intros Hfree. apply not_elem_of_cons in Hfree as [Hc Hrest].
  destruct (Ascii.eqb_spec c "/"%char) as [-> | _]; [done |].
  by rewrite IH.
Qed.

Lemma string_append_assoc (a b c : string) :
  String.append (String.append a b) c = String.append a (String.append b c).
Proof.
  induction a as [| x a IH]; [reflexivity |].
  change (String x (String.append (String.append a b) c)
          = String x (String.append a (String.append b c))).
  by f_equal.
Qed.

Lemma number_to_string_of_nat (i : nat) :
  number_to_string (Z.of_nat i) = toString 10 i.
Proof.
  unfold number_to_string.
  assert ((Z.of_nat i <? 0) = false) as -> by (apply Z.ltb_ge; lia).
  by rewrite Zabs2Nat.id.
Qed.

(** The key React gives the clone of a child without a key of its own: the
    position in decimal, a slash, a dot, and the position in base 36. *)
Lemma renderedTab_key {World : Type}
    (this_props : gmap string (PropVal World)) (i : nat)
    (element : Element World) :
  key element = None ->
  key (mapSingleChild (BottomTabNavigator.renderTabElement this_props) i element)
    = Some (String.append (toString 10 i)
              (String.append "/." (toString 36 i))).
Proof.
  intros Hkey. unfold mapSingleChild, cloneAndReplaceKey; simpl.
  rewrite Hkey, number_to_string_of_nat.
  assert (String.eqb (toString 10 i) "" = false) as ->
    by (apply String.eqb_neq, toString_nonempty).
  rewrite bool_decide_eq_false_2 by discriminate. simpl.
  rewrite escapeUserProvidedKey_slash_free
    by (apply toString_go_decimal_slash_free; simpl; apply not_elem_of_nil).
  unfold getComponentKey. rewrite Hkey.
  f_equal. by rewrite string_append_assoc.
Qed.

End KeyFacts.

(** C8: every rendered tab is made from the child in the same position:
    it keeps the child's type and every prop other than [style],
    [selected] and [onSelect], [title] and [icon] in particular; its key
    is always replaced, and for a child without a key of its own it is
    the position, a slash, a dot and the position in base 36. *)
Theorem renderTabElement_keeps_other_props {World : Type}
    (windowWidth : JSValue) (this_props : gmap string (PropVal World))
    (themedStyle : StyleType) (items : list (Element World)) :
  as_style (prop this_props "themedStyle") = Some themedStyle ->
  as_elements (prop this_props "children") = Some items ->
  ∃ view,
    BottomTabNavigator.render windowWidth this_props = Some view ∧
    length (content view) = S (length items) ∧
    ∀ (i : nat) element,
      items !! i = Some element ->
      ∃ tab,
        content view !! S i = Some (Some tab) ∧
        type tab = type element ∧
        (∃ k, key tab = Some k ∧
           (key element = None ->
            k = String.append (toString 10 i)
                  (String.append "/." (toString 36 i)))) ∧
        (∀ name : string,
           name ∉ ["style"; "selected"; "onSelect"] ->
           props tab !! name = props element !! name) ∧
        props tab !! "title" = props element !! "title" ∧
        props tab !! "icon" = props element !! "icon".
Proof.
  intros Hstyle Hchildren.
  destruct (render_defined windowWidth _ _ _ Hstyle Hchildren)
    as (view & Hview & Hcontent).
  exists view. split; [exact Hview |]. split.
  { rewrite Hcontent. unfold BottomTabNavigator.renderComponentChildren.
    simpl. by rewrite length_fmap, tabElements_length. }
  intros i element Hi.
  exists (mapSingleChild (BottomTabNavigator.renderTabElement this_props) i element).
  split; [by rewrite Hcontent, renderComponentChildren_tab, Hi |].
  split; [done |].
  split; [| split; [| split]].
  - eexists. split; [reflexivity |].
    intros Hkey. apply (inj Some). rewrite <- (renderedTab_key this_props i _ Hkey).
    reflexivity.
  - intros name Hname. apply renderedTab_frame.
    all: intros ->; apply Hname; set_solver.
  - by apply renderedTab_frame.
  - by apply renderedTab_frame.
Qed.

Lemma renderTabElement_keeps_other_props_witness :
  as_style (prop (navigator 1 "blue") "themedStyle")
    = Some (<["indicatorBackgroundColor" := JSString "blue"]> theme) ∧
  as_elements (prop (navigator 1 "blue") "children")
    = Some [tab "Home"; tab "Search"; tab "Profile"] ∧
  ∃ tab_1,
    (content <$> BottomTabNavigator.render (JSNumber 360) (navigator 1 "blue"))
      ≫= (λ c, c !! 2%nat) = Some (Some tab_1) ∧
    props tab_1 !! "title" = Some (PData (JSString "Search")) ∧
    key tab_1 = Some "1/.1"%string.
Proof.
  assert (H1 : as_style (prop (navigator 1 "blue") "themedStyle")
    = Some (<["indicatorBackgroundColor" := JSString "blue"]> theme))
    by reflexivity.
  assert (H2 : as_elements (prop (navigator 1 "blue") "children")
    = Some [tab "Home"; tab "Search"; tab "Profile"]) by reflexivity.
  refine (conj H1 (conj H2 _)).
  destruct (renderTabElement_keeps_other_props (JSNumber 360) _ _ _ H1 H2)
    as (view & Hview & _ & Htabs).
  destruct (Htabs 1%nat (tab "Search") eq_refl)
    as (tab_1 & Hlookup & _ & (k & Hk & Hkeyless) & _ & Htitle & _).
  exists tab_1. split; [| split].
  - rewrite Hview. exact Hlookup.
  - rewrite Htitle. reflexivity.
  - rewrite Hk, (Hkeyless eq_refl). reflexivity.
Defined.

(** ** The tab *)

(** C4: when the tab's [onSelect] prop is a callback, the effect of a
    press is exactly one call of it, with the negation of the tab's
    [selected] prop ([undefined] counting as [false]). *)
Theorem onPress_invokes_onSelect_with_negation {World : Type}
    (this_props : gmap string (PropVal World))
    (onSelect : JSValue -> Effect World) (w : World) :
  as_handler (prop this_props "onSelect") = Some onSelect ->
  BottomNavigatorTab.onPress this_props w
    = onSelect (JSBool (js_not (as_boolean (prop this_props "selected")))) w ∧
  (∀ selected : bool,
     prop this_props "selected" = PData (JSBool selected) ->
     BottomNavigatorTab.onPress this_props w = onSelect (JSBool (negb selected)) w).
Proof.
  intros Hon. unfold BottomNavigatorTab.onPress. rewrite Hon.
  split; [reflexivity |].
  intros selected ->. reflexivity.
Qed.

Lemma onPress_invokes_onSelect_with_negation_witness :
  as_handler (prop (tab_props true) "onSelect") = Some record ∧
  prop (tab_props true) "selected" = PData (JSBool true) ∧
  BottomNavigatorTab.onPress (tab_props true) [] = Returned [JSBool false].
Proof.
  assert (H1 : as_handler (prop (tab_props true) "onSelect") = Some record)
    by reflexivity.
  assert (H2 : prop (tab_props true) "selected" = PData (JSBool true))
    by reflexivity.
  refine (conj H1 (conj H2 _)).
  exact (proj2 (onPress_invokes_onSelect_with_negation _ _ [] H1) true H2).
Defined.

(** C5: a press on a tab without [onSelect], and a tap on any child of a
    navigator without [onSelect], return normally with the application
    state unchanged: no callback runs and nothing is thrown. *)
Theorem press_without_onSelect_is_noop {World : Type}
    (windowWidth : JSValue)
    (tab_props navigator_props : gmap string (PropVal World)) (w : World) :
  is_undefined (prop tab_props "onSelect") = true ->
  is_undefined (prop navigator_props "onSelect") = true ->
  BottomNavigatorTab.onPress tab_props w = Returned w ∧
  (∀ index : Z,
     BottomTabNavigator.onChildPress navigator_props index w = Returned w) ∧
  (∀ i : nat,
     BottomTabNavigator.pressTab windowWidth navigator_props i w = Returned w).
Proof.
  intros Htab Hnav.
  apply as_handler_undefined in Htab. apply as_handler_undefined in Hnav.
  assert (Hchild : ∀ index : Z,
    BottomTabNavigator.onChildPress navigator_props index w = Returned w).
  { intros index. unfold BottomTabNavigator.onChildPress. by rewrite Hnav. }
  split; [| split; [exact Hchild |]].
  - unfold BottomNavigatorTab.onPress. by rewrite Htab.
  - intros i. unfold BottomTabNavigator.pressTab.
    destruct (BottomTabNavigator.render windowWidth navigator_props)
      as [view|] eqn:Hview; [| done].
    destruct (render_inv _ _ _ Hview) as (themedStyle & items & _ & _ & Hcontent).
    rewrite Hcontent, renderComponentChildren_tab.
    destruct (items !! i) as [element|]; [| done].
    change (BottomNavigatorTab.onPress
              (props (BottomTabNavigator.renderTabElement navigator_props i element)) w
            = Returned w).
    unfold BottomNavigatorTab.onPress.
    rewrite renderTabElement_onSelect. apply Hchild.
Qed.

Lemma press_without_onSelect_is_noop_witness :
  is_undefined (prop (props (tab "Home")) "onSelect") = true ∧
  is_undefined (prop bare_navigator "onSelect") = true ∧
  BottomNavigatorTab.onPress (props (tab "Home")) [JSNumber 7]
    = Returned [JSNumber 7] ∧
  BottomTabNavigator.pressTab (JSNumber 360) bare_navigator 2 [JSNumber 7]
    = Returned [JSNumber 7].
Proof.
  assert (H1 : is_undefined (prop (props (tab "Home")) "onSelect") = true)
    by reflexivity.
  assert (H2 : is_undefined (prop bare_navigator "onSelect") = true)
    by reflexivity.
  destruct (press_without_onSelect_is_noop (JSNumber 360) _ _ [JSNumber 7] H1 H2)
    as (Htab & _ & Htap).
  exact (conj H1 (conj H2 (conj Htab (Htap 2%nat)))).
Defined.

(** C7, as stated, fails for an icon function that returns [null]: the
    [icon] prop of the tab below is defined, and its icon slot is empty. *)
Lemma renderComponentChildren_null_icon_not_rendered :
  is_Some (as_render (prop (<["icon" := PRender no_image]> (tab_props false)) "icon")) ∧
  BottomNavigatorTab.renderComponentChildren
      (<["icon" := PRender no_image]> (tab_props false))
      (BottomNavigatorTab.getComponentStyle theme) !! 0%nat
    = Some None ∧
  ¬ (is_Some (None : option (Element Log)) <->
     is_Some (as_render (prop (<["icon" := PRender no_image]> (tab_props false)) "icon"))).
Proof.
  split; [by eexists |]. split; [reflexivity |].
  intros [_ H]. destruct H as [? [=]]. by eexists.
Qed.

(** C7, amended: the tab's children are the icon slot followed by the
    title slot; the title slot holds a [Text] element exactly when the
    [title] prop is a non-empty string, and the icon slot holds the
    icon's element exactly when the [icon] prop is defined and returns an
    element for the themed icon style. *)
Theorem renderComponentChildren_icon_then_title {World : Type}
    (this_props : gmap string (PropVal World))
    (style : BottomNavigatorTab.ComponentStyle) :
  ∃ image text,
    BottomNavigatorTab.renderComponentChildren this_props style = [image; text] ∧
    (is_Some text <->
       ∃ t : string, prop this_props "title" = PData (JSString t) ∧ t ≠ "") ∧
    (is_Some image <->
       ∃ icon original,
         as_render (prop this_props "icon") = Some icon ∧
         icon (BottomNavigatorTab.icon style) = Some original) ∧
    (∀ element, text = Some element ->
       type element = Text ∧
       key element = Some "2"%string ∧
       prop (props element) "children" = prop this_props "title") ∧
    (∀ element, image = Some element ->
       ∃ icon original,
         as_render (prop this_props "icon") = Some icon ∧
         icon (BottomNavigatorTab.icon style) = Some original ∧
         type element = type original ∧
         key element = Some "1"%string).
Proof.
  eexists _, _. split; [reflexivity |].
  split; [| split; [| split]].
  - unfold BottomNavigatorTab.renderTextElement.
    destruct (prop this_props "title") as [[| | | |t| |]| | |]; simpl;
      try (split; [intros [? [=]] | intros (? & [=] & _)]; fail).
    destruct (String.eqb_spec t "") as [-> | Hne]; simpl.
    + split; [intros [? [=]] |].
      intros (t' & Heq & Hne). injection Heq as <-. by destruct Hne.
    + assert ((Z.of_nat (String.length t) =? 0) = false) as ->.
      { apply Z.eqb_neq. destruct t; [done | simpl; lia]. }
      simpl. split; [| by eauto]. intros _. by exists t.
  - unfold BottomNavigatorTab.renderImageElement.
    destruct (as_render (prop this_props "icon")) as [icon|].
    + destruct (icon (BottomNavigatorTab.icon style)) as [original|] eqn:Hicon.
      * split; [intros _; by exists icon, original | by eauto].
      * split; [intros [? [=]] |].
        intros (icon' & original & [= <-] & Horiginal). congruence.
    + split; [intros [? [=]] | intros (? & ? & [=] & _)].
  - intros element. unfold BottomNavigatorTab.renderTextElement.
    destruct (as_string (prop this_props "title")) as [t|]; [| discriminate].
    destruct (negb (t =? "")%string && negb (Z.of_nat (String.length t) =? 0));
      [| discriminate].
    intros [= <-]. simpl. split; [done |]. split; [done |].
    apply prop_lookup.
    rewrite lookup_insert_ne by done. by rewrite lookup_singleton_eq.
  - intros element. unfold BottomNavigatorTab.renderImageElement.
    destruct (as_render (prop this_props "icon")) as [icon|]; [| discriminate].
    destruct (icon (BottomNavigatorTab.icon style)) as [original|] eqn:Hicon;
      [| discriminate].
    intros [= <-]. by exists icon, original.
Qed.

Lemma renderComponentChildren_icon_then_title_witness :
  ∃ image text,
    BottomNavigatorTab.renderComponentChildren (tab_props false)
      (BottomNavigatorTab.getComponentStyle theme) = [Some image; Some text] ∧
    type text = Text ∧
    key image = Some "1"%string.
Proof.
  destruct (renderComponentChildren_icon_then_title (tab_props false)
              (BottomNavigatorTab.getComponentStyle theme))
    as (image & text & Hchildren & Htext & Himage & Htype & Hkey).
  destruct image as [image|]; [| exfalso].
  - destruct text as [text|]; [| exfalso].
    + exists image, text. split; [exact Hchildren |].
      split; [exact (proj1 (Htype text eq_refl)) |].
      destruct (Hkey image eq_refl) as (icon & original & _ & _ & _ & Hk).
      exact Hk.
    + destruct (proj2 Htext) as [element Helement]; [| discriminate Helement].
      exists "Home"%string. split; [reflexivity | discriminate].
  - destruct (proj2 Himage) as [element Helement]; [| discriminate Helement].
    eexists Samples.image, _. split; reflexivity.
Defined.

(** ** The style of the tab's icon *)

(** The style handed to the [icon] function carries the four icon tokens
    of the themed style. *)
Lemma getComponentStyle_icon_tokens (source : StyleType) :
  let style := BottomNavigatorTab.icon (BottomNavigatorTab.getComponentStyle source) in
  js_get style "width" = js_get source "iconWidth" ∧
  js_get style "height" = js_get source "iconHeight" ∧
  js_get style "tintColor" = js_get source "iconTintColor" ∧
  js_get style "marginBottom" = js_get source "iconMarginBottom" ∧
  style !! "source" = None.
Proof.
  (* the lookups are at literal names and compute *)
  cbv zeta. repeat split.
Qed.

(** The element cloned from the icon has, in its style, everything the
    icon's own style had except [marginBottom], which is set to
    [style.source]: a token the icon style does not have, so
    [undefined], whatever the themed [iconMarginBottom] is. *)
Lemma renderImageElement_marginBottom_undefined {World : Type}
    (this_props : gmap string (PropVal World)) (source : StyleType)
    (icon : StyleType -> option (Element World)) (original : Element World) :
  as_render (prop this_props "icon") = Some icon ->
  let style := BottomNavigatorTab.icon (BottomNavigatorTab.getComponentStyle source) in
  icon style = Some original ->
  ∃ element rendered_style,
    BottomNavigatorTab.renderImageElement this_props style = Some element ∧
    prop (props element) "style" = PData (JSObject rendered_style) ∧
    rendered_style !! "marginBottom" = Some JSUndefined ∧
    (∀ name : string, name ≠ "marginBottom" ->
       rendered_style !! name
         = js_spread (data_of (prop (props original) "style")) !! name).
Proof.
  intros Hicon style Horiginal.
  unfold BottomNavigatorTab.renderImageElement. rewrite Hicon, Horiginal.
  eexists _, _. split; [reflexivity |]. split.
  { apply prop_lookup. unfold cloneElement; simpl.
    apply lookup_union_Some_l. apply lookup_singleton_eq. }
  split.
  - by rewrite lookup_insert_eq.
  - intros name Hname. by rewrite lookup_insert_ne.
Qed.

Lemma renderImageElement_marginBottom_undefined_witness :
  as_render (prop (tab_props false) "icon") = Some image ∧
  is_Some (image (BottomNavigatorTab.icon (BottomNavigatorTab.getComponentStyle theme))) ∧
  ∃ element rendered_style,
    BottomNavigatorTab.renderImageElement (tab_props false)
      (BottomNavigatorTab.icon (BottomNavigatorTab.getComponentStyle theme))
      = Some element ∧
    prop (props element) "style" = PData (JSObject rendered_style) ∧
    rendered_style !! "marginBottom" = Some JSUndefined.
Proof.
  assert (H : as_render (prop (tab_props false) "icon") = Some image)
    by reflexivity.
  split; [exact H |]. split; [by eexists |].
  destruct (renderImageElement_marginBottom_undefined _ theme _ _ H eq_refl)
    as (element & rendered_style & Helement & Hstyle & Hmargin & _).
  exact (ex_intro _ element (ex_intro _ rendered_style
           (conj Helement (conj Hstyle Hmargin)))).
Defined.

(** C2, evaluated: a tab whose [icon] forwards the style it is given, under
    a theme with [iconWidth] 24, [iconHeight] 20, [iconTintColor] gray and
    [iconMarginBottom] 4, renders an icon whose style has width 24, height
    20 and tint gray, but [marginBottom] [undefined] instead of 4. *)
Theorem render_icon_style_loses_marginBottom :
  js_get theme "iconMarginBottom" = JSNumber 4 ∧
  ∃ view element rendered_style,
    BottomNavigatorTab.render (tab_props false) = Some view ∧
    content view !! 0%nat = Some (Some element) ∧
    prop (props element) "style" = PData (JSObject rendered_style) ∧
    js_get rendered_style "width" = JSNumber 24 ∧
    js_get rendered_style "height" = JSNumber 20 ∧
    js_get rendered_style "tintColor" = JSString "gray" ∧
    rendered_style !! "marginBottom" = Some JSUndefined ∧
    js_get rendered_style "marginBottom" ≠ js_get theme "iconMarginBottom".
Proof.
  split; [reflexivity |].
  eexists _, _, _.
  split; [reflexivity |]. split; [reflexivity |]. split; [reflexivity |].
  split; [reflexivity |]. split; [reflexivity |]. split; [reflexivity |].
  split; [reflexivity |]. vm_compute. discriminate.
Qed.

(** * Further properties of the two components *)

(** ** Facts about the tab's rendering *)

Section TabFacts.
Context {World : Type}.
Implicit Types (this_props : gmap string (PropVal World)).

Lemma tab_render_defined this_props (themedStyle : StyleType) :
  as_style (prop this_props "themedStyle") = Some themedStyle ->
  ∃ view,
    BottomNavigatorTab.render this_props = Some view ∧
    type (root view) = TouchableOpacity ∧
    props (root view) =
      delete "children"
        (<["onPress" := PHandler (λ _, BottomNavigatorTab.onPress this_props)]>
           (<["activeOpacity" := PData (JSNumber 1)]>
              (<["style" :=
                   PData (JSArray [data_of (prop this_props "style");
                                   JSObject BottomNavigatorTab.styles_container])]>
                 (delete "themedStyle" (delete "style" this_props))))) ∧
    content view =
      BottomNavigatorTab.renderComponentChildren this_props
        (BottomNavigatorTab.getComponentStyle themedStyle).
Proof.
  intros Hstyle. unfold BottomNavigatorTab.render. rewrite Hstyle; simpl.
  eexists. split; [reflexivity |]. by repeat split.
Qed.

Lemma renderComponentChildren_reads_icon_and_title this_props other_props style :
  this_props !! "icon" = other_props !! "icon" ->
  this_props !! "title" = other_props !! "title" ->
  BottomNavigatorTab.renderComponentChildren this_props style
    = BottomNavigatorTab.renderComponentChildren other_props style.
Proof.
  intros Hicon Htitle.
  unfold BottomNavigatorTab.renderComponentChildren,
    BottomNavigatorTab.renderImageElement,
    BottomNavigatorTab.renderTextElement, prop.
  by rewrite Hicon, Htitle.
Qed.

End TabFacts.

(** ** The touchable rendered by the tab *)

(** X1: the tab renders a [TouchableOpacity] whose [activeOpacity] is 1,
    whose style is the tab's own style followed by the sheet's container
    style, and whose [onPress] runs the tab's [onPress] whatever event it
    gets.  The themed style is consumed and the tab's own [children] are
    replaced by the rendered icon and title; every prop other than
    [style], [themedStyle], [activeOpacity], [onPress] and [children] is
    forwarded unchanged. *)
Theorem tab_render_touchable {World : Type}
    (this_props : gmap string (PropVal World)) (themedStyle : StyleType) :
  as_style (prop this_props "themedStyle") = Some themedStyle ->
  ∃ view,
    BottomNavigatorTab.render this_props = Some view ∧
    type (root view) = TouchableOpacity ∧
    prop (props (root view)) "activeOpacity" = PData (JSNumber 1) ∧
    prop (props (root view)) "style" =
      PData (JSArray [data_of (prop this_props "style");
                      JSObject BottomNavigatorTab.styles_container]) ∧
    props (root view) !! "themedStyle" = None ∧
    props (root view) !! "children" = None ∧
    content view =
      BottomNavigatorTab.renderComponentChildren this_props
        (BottomNavigatorTab.getComponentStyle themedStyle) ∧
    (∀ name : string,
       name ∉ ["style"; "themedStyle"; "activeOpacity"; "onPress"; "children"] ->
       props (root view) !! name = this_props !! name) ∧
    (∃ handler,
       as_handler (prop (props (root view)) "onPress") = Some handler ∧
       ∀ event w, handler event w = BottomNavigatorTab.onPress this_props w).
Proof.
  intros Hstyle.
  destruct (tab_render_defined _ _ Hstyle)
    as (view & Hview & Htype & Hprops & Hcontent).
  exists view. split; [exact Hview |]. split; [exact Htype |].
  rewrite Hprops. split; [| split; [| split; [| split; [| split; [| split]]]]].
  - apply prop_lookup. rewrite lookup_delete_ne by done.
    rewrite lookup_insert_ne by done. by rewrite lookup_insert_eq.
  - apply prop_lookup. rewrite lookup_delete_ne by done.
    do 2 (rewrite lookup_insert_ne by done). by rewrite lookup_insert_eq.
  - rewrite lookup_delete_ne by done.
    do 3 (rewrite lookup_insert_ne by done). by rewrite lookup_delete_eq.
  - by rewrite lookup_delete_eq.
  - exact Hcontent.
  - intros name Hname.
    assert (name ≠ "style" ∧ name ≠ "themedStyle" ∧
            name ≠ "activeOpacity" ∧ name ≠ "onPress" ∧ name ≠ "children")
      as (H1 & H2 & H3 & H4 & H5).
    { repeat split; intros ->; apply Hname; set_solver. }
    rewrite lookup_delete_ne by done.
    do 3 (rewrite lookup_insert_ne by done).
    by do 2 (rewrite lookup_delete_ne by done).
  - exists (λ _, BottomNavigatorTab.onPress this_props).
    split; [| reflexivity].
    rewrite (prop_lookup _ _
      (PHandler (λ _, BottomNavigatorTab.onPress this_props))); [done |].
    rewrite lookup_delete_ne by done. by rewrite lookup_insert_eq.
Qed.

Lemma tab_render_touchable_witness :
  as_style (prop (<["children" := PElements [tab "Badge"]]> (tab_props true))
                 "themedStyle") = Some theme ∧
  ∃ view handler,
    BottomNavigatorTab.render
      (<["children" := PElements [tab "Badge"]]> (tab_props true)) = Some view ∧
    props (root view) !! "title" = Some (PData (JSString "Home")) ∧
    props (root view) !! "children" = None ∧
    length (content view) = 2%nat ∧
    as_handler (prop (props (root view)) "onPress") = Some handler ∧
    handler JSNull [] = Returned [JSBool false].
Proof.
  assert (H : as_style
    (prop (<["children" := PElements [tab "Badge"]]> (tab_props true))
          "themedStyle") = Some theme) by reflexivity.
  split; [exact H |].
  destruct (tab_render_touchable _ _ H)
    as (view & Hview & _ & _ & _ & _ & Hchildren & Hcontent & Hforward
        & handler & Hhandler & Hpress).
  exists view, handler. split; [exact Hview |]. split; [| split; [| split]].
  - rewrite Hforward; [reflexivity |].
    intros Hin. by repeat (apply elem_of_cons in Hin as [Hin | Hin]; [discriminate Hin |]);
      apply elem_of_nil in Hin.
  - exact Hchildren.
  - rewrite Hcontent. reflexivity.
  - split; [exact Hhandler |]. rewrite Hpress. reflexivity.
Defined.

(** ** The title and the icon of the tab *)

(** X2: a tab with a non-empty title renders, in its second slot, a
    [Text] element showing that title, whose style has exactly two
    properties: [color], the themed [textColor], and [fontWeight], the
    themed [textFontWeight]. *)
Theorem tab_render_title_style {World : Type}
    (this_props : gmap string (PropVal World)) (themedStyle : StyleType)
    (t : string) :
  as_style (prop this_props "themedStyle") = Some themedStyle ->
  prop this_props "title" = PData (JSString t) ->
  t ≠ ""%string ->
  ∃ view text style,
    BottomNavigatorTab.render this_props = Some view ∧
    content view !! 1%nat = Some (Some text) ∧
    type text = Text ∧
    prop (props text) "children" = PData (JSString t) ∧
    prop (props text) "style" = PData (JSObject style) ∧
    js_get style "color" = js_get themedStyle "textColor" ∧
    js_get style "fontWeight" = js_get themedStyle "textFontWeight" ∧
    (∀ name : string, name ∉ ["color"; "fontWeight"] -> style !! name = None).
Proof.
  intros Hstyle Htitle Hne.
  destruct (tab_render_defined _ _ Hstyle) as (view & Hview & _ & _ & Hcontent).
  assert (Htext :
    BottomNavigatorTab.renderTextElement this_props
      (BottomNavigatorTab.title (BottomNavigatorTab.getComponentStyle themedStyle))
    = Some {| type := Text; key := Some (key_to_string (KeyNumber 2));
              props :=
                {[ "style" := PData (JSObject
                     (BottomNavigatorTab.title
                        (BottomNavigatorTab.getComponentStyle themedStyle)));
                   "children" := PData (JSString t) ]} |}).
  { unfold BottomNavigatorTab.renderTextElement. rewrite Htitle; simpl.
    apply String.eqb_neq in Hne. rewrite Hne; simpl.
    assert ((Z.of_nat (String.length t) =? 0) = false) as ->; [| done].
    apply Z.eqb_neq. destruct t; [by apply String.eqb_neq in Hne | simpl; lia]. }
  eexists view, _, _. split; [exact Hview |].
  split; [rewrite Hcontent; exact (f_equal Some Htext) |].
  split; [done |]. split; [done |]. split; [done |].
  split; [done |]. split; [done |].
  intros name Hname. simpl.
  rewrite lookup_insert_ne by (intros <-; apply Hname; set_solver).
  apply lookup_singleton_ne. intros <-; apply Hname; set_solver.
Qed.

Lemma tab_render_title_style_witness :
  as_style (prop (tab_props true) "themedStyle") = Some theme ∧
  prop (tab_props true) "title" = PData (JSString "Home") ∧
  "Home"%string ≠ ""%string ∧
  ∃ view text style,
    BottomNavigatorTab.render (tab_props true) = Some view ∧
    content view !! 1%nat = Some (Some text) ∧
    prop (props text) "style" = PData (JSObject style) ∧
    js_get style "color" = JSString "black" ∧
    js_get style "fontWeight" = JSString "normal".
Proof.
  assert (H1 : as_style (prop (tab_props true) "themedStyle") = Some theme)
    by reflexivity.
  assert (H2 : prop (tab_props true) "title" = PData (JSString "Home"))
    by reflexivity.
  assert (H3 : "Home"%string ≠ ""%string) by discriminate.
  refine (conj H1 (conj H2 (conj H3 _))).
  destruct (tab_render_title_style _ _ _ H1 H2 H3)
    as (view & text & style & Hview & Hslot & _ & _ & Hstyle & Hcolor & Hweight & _).
  exists view, text, style.
  refine (conj Hview (conj Hslot (conj Hstyle (conj _ _)))).
  - rewrite Hcolor. reflexivity.
  - rewrite Hweight. reflexivity.
Defined.

(** X3: when the [icon] prop is defined and returns an element for the
    themed icon style, the first slot of the rendered tab holds a clone of
    that element: same type, key ["1"], every prop other than [style] as
    the icon had it, and in the style every property other than
    [marginBottom] as the icon's own style had it.  When the icon returns
    [null] the slot is empty. *)
Theorem tab_render_icon_is_clone {World : Type}
    (this_props : gmap string (PropVal World)) (themedStyle : StyleType)
    (icon : StyleType -> option (Element World)) :
  as_style (prop this_props "themedStyle") = Some themedStyle ->
  as_render (prop this_props "icon") = Some icon ->
  ∃ view,
    BottomNavigatorTab.render this_props = Some view ∧
    (icon (BottomNavigatorTab.icon
             (BottomNavigatorTab.getComponentStyle themedStyle)) = None ->
     content view !! 0%nat = Some None) ∧
    (∀ original,
       icon (BottomNavigatorTab.icon
               (BottomNavigatorTab.getComponentStyle themedStyle)) = Some original ->
       ∃ element style,
         content view !! 0%nat = Some (Some element) ∧
         type element = type original ∧
         key element = Some "1"%string ∧
         (∀ name : string, name ≠ "style" ->
            props element !! name = props original !! name) ∧
         prop (props element) "style" = PData (JSObject style) ∧
         (∀ name : string, name ≠ "marginBottom" ->
            style !! name
              = js_spread (data_of (prop (props original) "style")) !! name)).
Proof.
  intros Hstyle Hicon.
  destruct (tab_render_defined _ _ Hstyle) as (view & Hview & _ & _ & Hcontent).
  exists view. split; [exact Hview |].
  rewrite Hcontent.
  unfold BottomNavigatorTab.renderComponentChildren,
    BottomNavigatorTab.renderImageElement.
  rewrite Hicon. split.
  - intros ->. reflexivity.
  - intros original ->.
    eexists _, _. split; [reflexivity |].
    unfold cloneElement; simpl.
    split; [done |]. split; [done |]. split; [| split].
    + intros name Hname. rewrite lookup_union_r; [done |].
      by apply lookup_singleton_ne.
    + apply prop_lookup. apply lookup_union_Some_l, lookup_singleton_eq.
    + intros name Hname. by rewrite lookup_insert_ne.
Qed.

Lemma tab_render_icon_is_clone_witness :
  as_style (prop (tab_props true) "themedStyle") = Some theme ∧
  as_render (prop (tab_props true) "icon") = Some image ∧
  ∃ view element style,
    BottomNavigatorTab.render (tab_props true) = Some view ∧
    content view !! 0%nat = Some (Some element) ∧
    type element = Image ∧
    key element = Some "1"%string ∧
    prop (props element) "style" = PData (JSObject style) ∧
    style !! "width" = Some (JSNumber 24).
Proof.
  assert (H1 : as_style (prop (tab_props true) "themedStyle") = Some theme)
    by reflexivity.
  assert (H2 : as_render (prop (tab_props true) "icon") = Some image)
    by reflexivity.
  refine (conj H1 (conj H2 _)).
  destruct (tab_render_icon_is_clone _ _ _ H1 H2) as (view & Hview & _ & Hclone).
  destruct (Hclone _ eq_refl)
    as (element & style & Hslot & Htype & Hkey & _ & Hstyle & Hkept).
  exists view, element, style.
  refine (conj Hview (conj Hslot (conj Htype (conj Hkey (conj Hstyle _))))).
  rewrite Hkept; [reflexivity | discriminate].
Defined.

(** ** The view rendered by the navigator *)

Section NavigatorRootFacts.
Context {World : Type}.
Variable windowWidth : JSValue.
Implicit Types (this_props : gmap string (PropVal World)).

Lemma navigator_render_root this_props (themedStyle : StyleType)
    (items : list (Element World)) :
  as_style (prop this_props "themedStyle") = Some themedStyle ->
  as_elements (prop this_props "children") = Some items ->
  ∃ view,
    BottomTabNavigator.render windowWidth this_props = Some view ∧
    type (root view) = View ∧
    props (root view) =
      <["style" :=
          PData (JSArray
            [JSObject (BottomTabNavigator.container
                         (BottomTabNavigator.getComponentStyle themedStyle));
             data_of (prop this_props "style");
             JSObject (BottomTabNavigator.styles_container windowWidth)])]>
        (delete "children" (delete "themedStyle" (delete "style" this_props))) ∧
    content view =
      BottomTabNavigator.renderComponentChildren this_props items
        (BottomTabNavigator.indicator
           (BottomTabNavigator.getComponentStyle themedStyle)).
Proof.
  intros Hstyle Hchildren. unfold BottomTabNavigator.render.
  rewrite Hstyle; simpl. rewrite Hchildren; simpl.
  eexists. split; [reflexivity |]. by repeat split.
Qed.

End NavigatorRootFacts.

(** X4: the navigator renders a [View] whose style is the themed container
    style (background colour, vertical padding, top border colour and
    width), then the navigator's own style, then the sheet's row layout
    at the window's width.  [themedStyle] and [children] are consumed;
    every other prop, [selectedIndex] and [onSelect] included, is
    forwarded to the [View] unchanged. *)
Theorem navigator_render_view {World : Type}
    (windowWidth : JSValue) (this_props : gmap string (PropVal World))
    (themedStyle : StyleType) (items : list (Element World)) :
  as_style (prop this_props "themedStyle") = Some themedStyle ->
  as_elements (prop this_props "children") = Some items ->
  ∃ view container,
    BottomTabNavigator.render windowWidth this_props = Some view ∧
    type (root view) = View ∧
    prop (props (root view)) "style" =
      PData (JSArray
        [JSObject container;
         data_of (prop this_props "style");
         JSObject {[ "flexDirection" := JSString "row";
                     "justifyContent" := JSString "space-between";
                     "width" := windowWidth ]}]) ∧
    js_get container "backgroundColor" = js_get themedStyle "backgroundColor" ∧
    js_get container "paddingVertical" = js_get themedStyle "paddingVertical" ∧
    js_get container "borderTopColor" = js_get themedStyle "borderTopColor" ∧
    js_get container "borderTopWidth" = js_get themedStyle "borderTopWidth" ∧
    props (root view) !! "themedStyle" = None ∧
    props (root view) !! "children" = None ∧
    (∀ name : string,
       name ∉ ["style"; "themedStyle"; "children"] ->
       props (root view) !! name = this_props !! name).
Proof.
  intros Hstyle Hchildren.
  destruct (navigator_render_root windowWidth _ _ _ Hstyle Hchildren)
    as (view & Hview & Htype & Hprops & _).
  eexists view, _. split; [exact Hview |]. split; [exact Htype |].
  rewrite Hprops.
  split; [apply prop_lookup; by rewrite lookup_insert_eq |].
  split; [done |]. split; [done |]. split; [done |]. split; [done |].
  split; [| split].
  - rewrite lookup_insert_ne by done.
    rewrite lookup_delete_ne by done. by rewrite lookup_delete_eq.
  - rewrite lookup_insert_ne by done. by rewrite lookup_delete_eq.
  - intros name Hname.
    assert (name ≠ "style" ∧ name ≠ "themedStyle" ∧ name ≠ "children")
      as (H1 & H2 & H3).
    { repeat split; intros ->; apply Hname; set_solver. }
    rewrite lookup_insert_ne by done.
    by do 3 (rewrite lookup_delete_ne by done).
Qed.

Lemma navigator_render_view_witness :
  as_style (prop (navigator 1 "blue") "themedStyle")
    = Some (<["indicatorBackgroundColor" := JSString "blue"]> theme) ∧
  as_elements (prop (navigator 1 "blue") "children")
    = Some [tab "Home"; tab "Search"; tab "Profile"] ∧
  ∃ view,
    BottomTabNavigator.render (JSNumber 360) (navigator 1 "blue") = Some view ∧
    props (root view) !! "selectedIndex" = Some (PData (JSNumber 1)) ∧
    props (root view) !! "children" = None.
Proof.
  assert (H1 : as_style (prop (navigator 1 "blue") "themedStyle")
    = Some (<["indicatorBackgroundColor" := JSString "blue"]> theme))
    by reflexivity.
  assert (H2 : as_elements (prop (navigator 1 "blue") "children")
    = Some [tab "Home"; tab "Search"; tab "Profile"]) by reflexivity.
  refine (conj H1 (conj H2 _)).
  destruct (navigator_render_view (JSNumber 360) _ _ _ H1 H2)
    as (view & container & Hview & _ & _ & _ & _ & _ & _ & _ & Hchildren & Hforward).
  exists view. refine (conj Hview (conj _ Hchildren)).
  rewrite Hforward; [reflexivity |].
  intros Hin.
  by repeat (apply elem_of_cons in Hin as [Hin | Hin]; [discriminate Hin |]);
    apply elem_of_nil in Hin.
Defined.

(** X5: when the indicator is shown it has key ["0"] and exactly three
    props: [positions], the number of children; [selectedPosition], the
    navigator's [selectedIndex]; and a style made of the themed indicator
    style ([height] from [indicatorHeight], [backgroundColor] from
    [indicatorBackgroundColor], nothing else) followed by absolute
    positioning. *)
Theorem navigator_render_indicator_style {World : Type}
    (windowWidth : JSValue) (this_props : gmap string (PropVal World))
    (themedStyle : StyleType) (items : list (Element World)) :
  as_style (prop this_props "themedStyle") = Some themedStyle ->
  as_elements (prop this_props "children") = Some items ->
  js_get themedStyle "indicatorBackgroundColor" ≠ JSString "transparent" ->
  ∃ view element style,
    BottomTabNavigator.render windowWidth this_props = Some view ∧
    content view !! 0%nat = Some (Some element) ∧
    type element = TabBarIndicator ∧
    key element = Some "0"%string ∧
    props element =
      {[ "style" :=
           PData (JSArray [JSObject style;
                           JSObject {[ "position" := JSString "absolute" ]}]);
         "selectedPosition" := prop this_props "selectedIndex";
         "positions" := PData (JSNumber (Z.of_nat (length items))) ]} ∧
    style =
      {[ "height" := js_get themedStyle "indicatorHeight";
         "backgroundColor" := js_get themedStyle "indicatorBackgroundColor" ]} ∧
    props element !! "positions"
      = Some (PData (JSNumber (Z.of_nat (length items)))) ∧
    props element !! "selectedPosition" = Some (prop this_props "selectedIndex") ∧
    (∀ name : string,
       name ∉ ["style"; "selectedPosition"; "positions"] ->
       props element !! name = None).
Proof.
  intros Hstyle Hchildren Hshown.
  destruct (render_defined windowWidth _ _ _ Hstyle Hchildren)
    as (view & Hview & Hcontent).
  unfold BottomTabNavigator.renderComponentChildren in Hcontent.
  assert (Hbg :
    js_strict_eq_prim
      (js_get (BottomTabNavigator.indicator
                 (BottomTabNavigator.getComponentStyle themedStyle))
              "backgroundColor") (JSString "transparent") = false).
  { apply not_true_is_false. intros Heq. apply js_strict_eq_string in Heq.
    apply Hshown. rewrite <- Heq. reflexivity. }
  rewrite Hbg in Hcontent. simpl in Hcontent.
  rewrite tabElements_length in Hcontent.
  eexists view, _, _. split; [exact Hview |].
  split; [by rewrite Hcontent |].
  split; [done |]. split; [done |].
  split; [reflexivity |]. split; [reflexivity |].
  unfold BottomTabNavigator.renderIndicatorElement; simpl.
  split; [| split].
  - do 2 (rewrite lookup_insert_ne by done). by rewrite lookup_singleton_eq.
  - rewrite lookup_insert_ne by done. by rewrite lookup_insert_eq.
  - intros name Hname.
    do 2 (rewrite lookup_insert_ne by (intros <-; apply Hname; set_solver)).
    apply lookup_singleton_ne. intros <-; apply Hname; set_solver.
Qed.

Lemma navigator_render_indicator_style_witness :
  as_style (prop (navigator 1 "blue") "themedStyle")
    = Some (<["indicatorBackgroundColor" := JSString "blue"]> theme) ∧
  as_elements (prop (navigator 1 "blue") "children")
    = Some [tab "Home"; tab "Search"; tab "Profile"] ∧
  js_get (<["indicatorBackgroundColor" := JSString "blue"]> theme)
    "indicatorBackgroundColor" ≠ JSString "transparent" ∧
  ∃ view element,
    BottomTabNavigator.render (JSNumber 360) (navigator 1 "blue") = Some view ∧
    content view !! 0%nat = Some (Some element) ∧
    key element = Some "0"%string ∧
    props element !! "positions" = Some (PData (JSNumber 3)) ∧
    props element !! "selectedPosition" = Some (PData (JSNumber 1)) ∧
    props element !! "style" =
      Some (PData (JSArray
        [JSObject {[ "height" := JSNumber 2;
                     "backgroundColor" := JSString "blue" ]};
         JSObject {[ "position" := JSString "absolute" ]}])).
Proof.
  assert (H1 : as_style (prop (navigator 1 "blue") "themedStyle")
    = Some (<["indicatorBackgroundColor" := JSString "blue"]> theme))
    by reflexivity.
  assert (H2 : as_elements (prop (navigator 1 "blue") "children")
    = Some [tab "Home"; tab "Search"; tab "Profile"]) by reflexivity.
  assert (H3 : js_get (<["indicatorBackgroundColor" := JSString "blue"]> theme)
    "indicatorBackgroundColor" ≠ JSString "transparent")
    by (vm_compute; discriminate).
  refine (conj H1 (conj H2 (conj H3 _))).
  destruct (navigator_render_indicator_style (JSNumber 360) _ _ _ H1 H2 H3)
    as (view & element & style & Hview & Hslot & _ & Hkey & Hprops & Hstyle
        & Hpositions & Hselected & _).
  exists view, element.
  refine (conj Hview (conj Hslot (conj Hkey (conj _ (conj _ _))))).
  - rewrite Hpositions. reflexivity.
  - rewrite Hselected. reflexivity.
  - rewrite Hprops, Hstyle. reflexivity.
Defined.

(** ** Taps depend on the position only *)

(** X6: the effect of a tap on the tab in position [i] is
    [onChildPress(i)] of the navigator whatever elements its children are:
    two navigators that differ only in their children react to the tap in
    the same way, so no callback of a child is ever run. *)
Theorem pressTab_independent_of_children {World : Type}
    (windowWidth : JSValue) (this_props : gmap string (PropVal World))
    (themedStyle : StyleType) (items other_items : list (Element World))
    (i : nat) (w : World) :
  as_style (prop this_props "themedStyle") = Some themedStyle ->
  (i < length items)%nat ->
  (i < length other_items)%nat ->
  BottomTabNavigator.pressTab windowWidth
      (<["children" := PElements items]> this_props) i w
    = BottomTabNavigator.onChildPress this_props (Z.of_nat i) w ∧
  BottomTabNavigator.pressTab windowWidth
      (<["children" := PElements items]> this_props) i w
    = BottomTabNavigator.pressTab windowWidth
        (<["children" := PElements other_items]> this_props) i w.
Proof.
  intros Hstyle Hi Hother.
  assert (Hpress : ∀ l : list (Element World), (i < length l)%nat ->
    BottomTabNavigator.pressTab windowWidth
        (<["children" := PElements l]> this_props) i w
      = BottomTabNavigator.onChildPress this_props (Z.of_nat i) w).
  { intros l Hl.
    rewrite (pressTab_onChildPress windowWidth _ themedStyle l); [| | | exact Hl].
    - unfold BottomTabNavigator.onChildPress, prop.
      by do 2 (rewrite lookup_insert_ne by done).
    - unfold prop. by rewrite lookup_insert_ne.
    - unfold prop. by rewrite lookup_insert_eq. }
  split; [by apply Hpress |].
  by rewrite !Hpress.
Qed.

Lemma pressTab_independent_of_children_witness :
  as_style (prop (navigator 1 "blue") "themedStyle")
    = Some (<["indicatorBackgroundColor" := JSString "blue"]> theme) ∧
  (0 < length [{| type := Component "BottomNavigatorTab"; key := None;
                  props := tab_props true |}])%nat ∧
  (0 < length [tab "Home"])%nat ∧
  BottomTabNavigator.pressTab (JSNumber 360)
      (<["children" := PElements
           [{| type := Component "BottomNavigatorTab"; key := None;
               props := tab_props true |}]]> (navigator 1 "blue")) 0 []
    = Returned [JSNumber 0].
Proof.
  assert (H1 : as_style (prop (navigator 1 "blue") "themedStyle")
    = Some (<["indicatorBackgroundColor" := JSString "blue"]> theme))
    by reflexivity.
  assert (H2 : (0 < length [{| type := Component "BottomNavigatorTab";
                               key := None; props := tab_props true |}])%nat)
    by (simpl; lia).
  assert (H3 : (0 < length [tab "Home"])%nat) by (simpl; lia).
  refine (conj H1 (conj H2 (conj H3 _))).
  exact (proj1 (pressTab_independent_of_children (JSNumber 360) _ _ _ _ 0%nat []
                  H1 H2 H3)).
Defined.

(** ** How many tabs are selected *)

Section CountFacts.
Context {World : Type}.


End CountFacts.



(** ** Default props *)

(** X8: resolving the navigator's default props changes nothing but an
    undefined [selectedIndex]: every other attribute is kept as given, and
    so is a [selectedIndex] that is not [undefined]. *)
Theorem defaultProps_only_fills_selectedIndex {World : Type}
    (attrs : gmap string (PropVal World)) :
  (∀ name : string,
     name ≠ "selectedIndex" ->
     resolveDefaultProps BottomTabNavigator.defaultProps attrs !! name
       = attrs !! name) ∧
  (is_undefined (prop attrs "selectedIndex") = false ->
   resolveDefaultProps BottomTabNavigator.defaultProps attrs !! "selectedIndex"
     = attrs !! "selectedIndex").
Proof.
  split.
  - intros name Hname. rewrite resolveDefaultProps_lookup.
    unfold BottomTabNavigator.defaultProps.
    rewrite lookup_singleton_ne by done.
    destruct (attrs !! name) as [v|]; [| done]. by destruct (is_undefined v).
  - unfold prop. intros Hdefined. rewrite resolveDefaultProps_lookup.
    destruct (attrs !! "selectedIndex") as [v|]; simpl in Hdefined;
      [| discriminate].
    by rewrite Hdefined.
Qed.

Lemma defaultProps_only_fills_selectedIndex_witness :
  is_undefined
    (prop ({[ "selectedIndex" := PData (JSNumber 2);
              "onSelect" := PHandler record ]}
             : gmap string (PropVal Log)) "selectedIndex") = false ∧
  resolveDefaultProps BottomTabNavigator.defaultProps
    ({[ "selectedIndex" := PData (JSNumber 2);
        "onSelect" := PHandler record ]} : gmap string (PropVal Log))
    !! "selectedIndex" = Some (PData (JSNumber 2)).
Proof.
  assert (H : is_undefined
    (prop ({[ "selectedIndex" := PData (JSNumber 2);
              "onSelect" := PHandler record ]}
             : gmap string (PropVal Log)) "selectedIndex") = false)
    by reflexivity.
  split; [exact H |].
  exact (proj2 (defaultProps_only_fills_selectedIndex _) H).
Defined.

(** ** Cloning tabs *)

(** X9: cloning a tab that was already cloned by a navigator replaces the
    earlier injection completely: the result is the clone of the original
    child, so no [style], [selected], [onSelect] or key of the first
    navigator survives. *)
Theorem renderTabElement_replaces_injection {World : Type}
    (this_props other_props : gmap string (PropVal World))
    (i j : nat) (element : Element World) :
  BottomTabNavigator.renderTabElement other_props j
      (BottomTabNavigator.renderTabElement this_props i element)
    = BottomTabNavigator.renderTabElement other_props j element.
Proof.
  unfold BottomTabNavigator.renderTabElement, cloneElement; simpl.
  f_equal. apply map_eq. intros name.
  destruct (decide (name = "style")) as [-> | Hstyle].
  { rewrite (lookup_union_l' _ (_ ∪ _)), (lookup_union_l' _ (props element));
      [done | |]; rewrite lookup_insert_eq; by eexists. }
  destruct (decide (name = "selected")) as [-> | Hselected].
  { rewrite (lookup_union_l' _ (_ ∪ _)), (lookup_union_l' _ (props element));
      [done | |]; rewrite lookup_insert_ne by done; rewrite lookup_insert_eq;
      by eexists. }
  destruct (decide (name = "onSelect")) as [-> | HonSelect].
  { rewrite (lookup_union_l' _ (_ ∪ _)), (lookup_union_l' _ (props element));
      [done | |]; do 2 (rewrite lookup_insert_ne by done);
      rewrite lookup_singleton_eq; by eexists. }
  rewrite !lookup_union_r; [done | | |];
    do 2 (rewrite lookup_insert_ne by done); by rewrite lookup_singleton_ne.
Qed.

(** X10: the navigator's injection does not change what a tab shows: the
    icon and title slots rendered from the injected props are those
    rendered from the child's own props. *)
Theorem injected_tab_shows_same_children {World : Type}
    (this_props : gmap string (PropVal World)) (i : nat)
    (element : Element World) (style : BottomNavigatorTab.ComponentStyle) :
  BottomNavigatorTab.renderComponentChildren
      (props (BottomTabNavigator.renderTabElement this_props i element)) style
    = BottomNavigatorTab.renderComponentChildren (props element) style.
Proof.
  apply renderComponentChildren_reads_icon_and_title;
    by apply renderTabElement_frame.
Qed.

(** ** From the navigator to the touchable of a tab *)

(** X11: rendering the navigator, then the tab it produced in position
    [i], yields a touchable whose style starts with the injected
    [{flex: 1}] in place of the child's own style, and whose [onPress]
    runs the navigator's [onChildPress(i)]. *)
Theorem navigator_tab_touchable {World : Type}
    (windowWidth : JSValue) (this_props : gmap string (PropVal World))
    (themedStyle tabStyle : StyleType) (items : list (Element World))
    (i : nat) (element : Element World) :
  as_style (prop this_props "themedStyle") = Some themedStyle ->
  as_elements (prop this_props "children") = Some items ->
  items !! i = Some element ->
  as_style (prop (props element) "themedStyle") = Some tabStyle ->
  ∃ view tab touchable handler,
    BottomTabNavigator.render windowWidth this_props = Some view ∧
    content view !! S i = Some (Some tab) ∧
    BottomNavigatorTab.render (props tab) = Some touchable ∧
    prop (props (root touchable)) "style" =
      PData (JSArray [JSObject {[ "flex" := JSNumber 1 ]};
                      JSObject BottomNavigatorTab.styles_container]) ∧
    as_handler (prop (props (root touchable)) "onPress") = Some handler ∧
    (∀ event w,
       handler event w
         = BottomTabNavigator.onChildPress this_props (Z.of_nat i) w) ∧
    content touchable =
      BottomNavigatorTab.renderComponentChildren (props element)
        (BottomNavigatorTab.getComponentStyle tabStyle).
Proof.
  intros Hstyle Hchildren Hi Htab.
  destruct (render_defined windowWidth _ _ _ Hstyle Hchildren)
    as (view & Hview & Hcontent).
  set (tab := mapSingleChild
                (BottomTabNavigator.renderTabElement this_props) i element).
  assert (Hthemed : as_style (prop (props tab) "themedStyle") = Some tabStyle).
  { unfold prop in *. subst tab. by rewrite renderedTab_frame. }
  destruct (tab_render_defined _ _ Hthemed)
    as (touchable & Htouchable & _ & Hprops & Hshown).
  exists view, tab, touchable, (λ _, BottomNavigatorTab.onPress (props tab)).
  split; [exact Hview |].
  split; [by rewrite Hcontent, renderComponentChildren_tab, Hi |].
  split; [exact Htouchable |].
  rewrite Hprops. split; [| split; [| split]].
  - assert (Hflex : prop (props tab) "style"
                      = PData (JSObject {[ "flex" := JSNumber 1 ]})).
    { apply prop_lookup. subst tab.
      unfold mapSingleChild, cloneAndReplaceKey,
        BottomTabNavigator.renderTabElement, cloneElement; simpl.
      apply lookup_union_Some_l. by rewrite lookup_insert_eq. }
    rewrite Hflex. apply prop_lookup. rewrite lookup_delete_ne by done.
    do 2 (rewrite lookup_insert_ne by done). by rewrite lookup_insert_eq.
  - rewrite (prop_lookup _ _
      (PHandler (λ _, BottomNavigatorTab.onPress (props tab)))); [done |].
    rewrite lookup_delete_ne by done. by rewrite lookup_insert_eq.
  - intros event w. unfold BottomNavigatorTab.onPress. subst tab.
    by rewrite renderedTab_onSelect.
  - rewrite Hshown. subst tab. apply renderComponentChildren_reads_icon_and_title;
      by apply renderedTab_frame.
Qed.

Lemma navigator_tab_touchable_witness :
  as_style (prop (navigator 1 "blue") "themedStyle")
    = Some (<["indicatorBackgroundColor" := JSString "blue"]> theme) ∧
  as_elements (prop (navigator 1 "blue") "children")
    = Some [tab "Home"; tab "Search"; tab "Profile"] ∧
  [tab "Home"; tab "Search"; tab "Profile"] !! 2%nat = Some (tab "Profile") ∧
  as_style (prop (props (tab "Profile")) "themedStyle") = Some theme ∧
  ∃ touchable handler,
    as_handler (prop (props (root touchable)) "onPress") = Some handler ∧
    handler JSNull [] = Returned [JSNumber 2].
Proof.
  assert (H1 : as_style (prop (navigator 1 "blue") "themedStyle")
    = Some (<["indicatorBackgroundColor" := JSString "blue"]> theme))
    by reflexivity.
  assert (H2 : as_elements (prop (navigator 1 "blue") "children")
    = Some [tab "Home"; tab "Search"; tab "Profile"]) by reflexivity.
  assert (H3 : [tab "Home"; tab "Search"; tab "Profile"] !! 2%nat
    = Some (tab "Profile")) by reflexivity.
  assert (H4 : as_style (prop (props (tab "Profile")) "themedStyle") = Some theme)
    by reflexivity.
  refine (conj H1 (conj H2 (conj H3 (conj H4 _)))).
  destruct (navigator_tab_touchable (JSNumber 360) _ _ _ _ 2 _ H1 H2 H3 H4)
    as (view & tab_2 & touchable & handler & _ & _ & _ & _ & Hhandler & Hpress & _).
  exists touchable, handler. split; [exact Hhandler |].
  rewrite Hpress. reflexivity.
Defined.

(** ** The indicator follows the selected tab *)

(** X12: in one render with a visible indicator and [selectedIndex] the
    position of a child, the indicator's [selectedPosition] is the
    position of the tab injected with [selected = true], and its
    [positions] is the number of tabs that follow it. *)
Theorem indicator_in_step_with_selected_tab {World : Type}
    (windowWidth : JSValue) (this_props : gmap string (PropVal World))
    (themedStyle : StyleType) (items : list (Element World)) (i : nat) :
  as_style (prop this_props "themedStyle") = Some themedStyle ->
  as_elements (prop this_props "children") = Some items ->
  prop this_props "selectedIndex" = PData (JSNumber (Z.of_nat i)) ->
  (i < length items)%nat ->
  js_get themedStyle "indicatorBackgroundColor" ≠ JSString "transparent" ->
  ∃ view element tab,
    BottomTabNavigator.render windowWidth this_props = Some view ∧
    content view !! 0%nat = Some (Some element) ∧
    content view !! S i = Some (Some tab) ∧
    prop (props element) "selectedPosition" = PData (JSNumber (Z.of_nat i)) ∧
    prop (props tab) "selected" = PData (JSBool true) ∧
    prop (props element) "positions"
      = PData (JSNumber (Z.of_nat (length (content view) - 1))).
Proof.
  intros Hstyle Hchildren Hsel Hi Hshown.
  destruct (render_defined windowWidth _ _ _ Hstyle Hchildren)
    as (view & Hview & Hcontent).
  destruct (lookup_lt_is_Some_2 items i Hi) as [child Hchild].
  assert (Htab : content view !! S i
    = Some (Some (mapSingleChild
                    (BottomTabNavigator.renderTabElement this_props) i child)))
    by (by rewrite Hcontent, renderComponentChildren_tab, Hchild).
  assert (Hlength : length (content view) = S (length items)).
  { rewrite Hcontent. unfold BottomTabNavigator.renderComponentChildren.
    simpl. by rewrite length_fmap, tabElements_length. }
  unfold BottomTabNavigator.renderComponentChildren in Hcontent.
  assert (Hbg :
    js_strict_eq_prim
      (js_get (BottomTabNavigator.indicator
                 (BottomTabNavigator.getComponentStyle themedStyle))
              "backgroundColor") (JSString "transparent") = false).
  { apply not_true_is_false. intros Heq. apply js_strict_eq_string in Heq.
    apply Hshown. rewrite <- Heq. reflexivity. }
  rewrite Hbg in Hcontent. simpl in Hcontent.
  eexists view, _, _. split; [exact Hview |].
  split; [by rewrite Hcontent |]. split; [exact Htab |].
  split; [| split].
  - rewrite <- Hsel. apply prop_lookup. simpl.
    rewrite lookup_insert_ne by done. by rewrite lookup_insert_eq.
  - erewrite prop_lookup by apply renderTabElement_selected.
    rewrite Hsel. simpl. by rewrite bool_decide_eq_true_2.
  - rewrite Hlength, tabElements_length. simpl. rewrite Nat.sub_0_r.
    apply prop_lookup.
    do 2 (rewrite lookup_insert_ne by done). by rewrite lookup_singleton_eq.
Qed.

Lemma indicator_in_step_with_selected_tab_witness :
  as_style (prop (navigator 2 "blue") "themedStyle")
    = Some (<["indicatorBackgroundColor" := JSString "blue"]> theme) ∧
  as_elements (prop (navigator 2 "blue") "children")
    = Some [tab "Home"; tab "Search"; tab "Profile"] ∧
  prop (navigator 2 "blue") "selectedIndex" = PData (JSNumber (Z.of_nat 2)) ∧
  (2 < length [tab "Home"; tab "Search"; tab "Profile"])%nat ∧
  js_get (<["indicatorBackgroundColor" := JSString "blue"]> theme)
    "indicatorBackgroundColor" ≠ JSString "transparent" ∧
  ∃ view element tab_2,
    BottomTabNavigator.render (JSNumber 360) (navigator 2 "blue") = Some view ∧
    content view !! 0%nat = Some (Some element) ∧
    content view !! 3%nat = Some (Some tab_2) ∧
    prop (props element) "selectedPosition" = PData (JSNumber 2) ∧
    prop (props tab_2) "selected" = PData (JSBool true).
Proof.
  assert (H1 : as_style (prop (navigator 2 "blue") "themedStyle")
    = Some (<["indicatorBackgroundColor" := JSString "blue"]> theme))
    by reflexivity.
  assert (H2 : as_elements (prop (navigator 2 "blue") "children")
    = Some [tab "Home"; tab "Search"; tab "Profile"]) by reflexivity.
  assert (H3 : prop (navigator 2 "blue") "selectedIndex"
    = PData (JSNumber (Z.of_nat 2))) by reflexivity.
  assert (H4 : (2 < length [tab "Home"; tab "Search"; tab "Profile"])%nat)
    by (simpl; lia).
  assert (H5 : js_get (<["indicatorBackgroundColor" := JSString "blue"]> theme)
    "indicatorBackgroundColor" ≠ JSString "transparent")
    by (vm_compute; discriminate).
  refine (conj H1 (conj H2 (conj H3 (conj H4 (conj H5 _))))).
  destruct (indicator_in_step_with_selected_tab (JSNumber 360) _ _ _ 2
              H1 H2 H3 H4 H5)
    as (view & element & tab_2 & Hview & H0 & Htab & Hpos & Hselected & _).
  exists view, element, tab_2.
  exact (conj Hview (conj H0 (conj Htab (conj Hpos Hselected)))).
Defined.
